(** * QuestNav viewer: the per-tick update loop and the custom pose command

    A shallow embedding of [examples/python_questnav_viewer/questnav_viewer.py]:
    the object [self] of [QuestNavViewer] is a record of its attributes, every
    method is a function from the record to the record, and the Python
    operations that can raise ([l[0]], [l.pop(0)], [/], reading an attribute,
    [float(s)]) return in an error monad, so that the guards of the source are
    what keeps a tick from raising.

    Python [int] is [Z].  Python [float] (time stamps, rates, coordinates) is
    idealised as exact rationals [Q]: the rounding of binary64 is outside this
    model, every comparison and guard of the source is kept. *)

From Stdlib Require Import ZArith QArith List String Bool Lia.
Import ListNotations.
Open Scope Z_scope.

(** ** Exceptions and the error monad *)

Inductive PyExc : Type :=
| IndexError
| ZeroDivisionError
| AttributeError
| ValueError (text : string).

Inductive Result (A : Type) : Type :=
| Ok (a : A)
| Raise (e : PyExc).

Arguments Ok {A} a.
Arguments Raise {A} e.

Definition bind {A B : Type} (m : Result A) (k : A -> Result B) : Result B :=
  match m with
  | Ok a => k a
  | Raise e => Raise e
  end.

Notation "x <- m ;; k" := (bind m (fun x => k))
  (at level 61, m at next level, right associativity).

(** ** Python primitives that can raise *)

(** [l[i]]: [IndexError] out of range. *)
Definition py_getitem {A : Type} (l : list A) (i : nat) : Result A :=
  match nth_error l i with
  | Some a => Ok a
  | None => Raise IndexError
  end.

(** [l.pop(0)]: [IndexError] on the empty list; the popped value is dropped
    by the caller, so only the remaining list is returned. *)
Definition py_pop0 {A : Type} (l : list A) : Result (list A) :=
  match l with
  | [] => Raise IndexError
  | _ :: rest => Ok rest
  end.

(** [a / b] on floats: [ZeroDivisionError] when [b] is zero. *)
Definition py_truediv (a b : Q) : Result Q :=
  if Qeq_bool b 0 then Raise ZeroDivisionError else Ok (a / b)%Q.

(** [a > b] on floats. *)
Definition Qgtb (a b : Q) : bool := negb (Qle_bool a b).

(** [sum(l)]: adds from the left, starting at 0. *)
Definition py_sum (l : list Q) : Q := fold_left Qplus l 0%Q.

(** [len(l)] as a float operand. *)
Definition py_len (l : list Q) : Q := inject_Z (Z.of_nat (List.length l)).

(** [int(x)] truncates towards zero. *)
Definition py_int (x : Q) : Z := Z.quot (Qnum x) (Zpos (Qden x)).

(** ** Geometry values (wpimath): constructor arguments only *)

Record Translation3d : Type := { tX : Q; tY : Q; tZ : Q }.
(** [Rotation3d(roll, pitch, yaw)], radians. *)
Record Rotation3d : Type := { rX : Q; rY : Q; rZ : Q }.
Record Pose3d : Type := { translation : Translation3d; rotation : Rotation3d }.

(** [Pose3d()] *)
Definition Pose3d_origin : Pose3d :=
  {| translation := {| tX := 0; tY := 0; tZ := 0 |};
     rotation := {| rX := 0; rY := 0; rZ := 0 |} |}.

(** ** What the viewer writes: log lines, label texts, message boxes *)

(** The argument of each [self._log(...)] call of the source (the time stamp
    that [_log] prepends is left out). *)
Inductive LogMsg : Type :=
| MsgInitialized                      (* "QuestNav Viewer initialized" *)
| MsgListening                        (* "NT4 Server listening on port 5810" *)
| MsgWaiting                          (* "Waiting for Quest headset..." *)
| MsgConnectedFrom (remote_ip : string) (* f"Quest connected from {ip}" *)
| MsgDisconnected                     (* "Quest disconnected" *)
| WarnDropped (drops : Z)             (* f"[WARN] Dropped {drops} frames" *)
| WarnLowBattery (battery : Z)        (* f"[WARN] Low battery: {battery}%" *)
| OkQuestConnected                    (* "[OK] Quest connected - receiving data" *)
| WarnQuestDisconnected               (* "[WARN] Quest disconnected" *)
| OkTrackingStarted                   (* "[OK] Tracking started" *)
| WarnTrackingLost                    (* "[WARN] Tracking lost!" *)
| CmdResetOrigin                      (* "[CMD] Sent pose reset to origin (0, 0, 0)" *)
| CmdResetCustom (x y z yaw_deg : Q)  (* f"[CMD] Sent pose reset to ({x:.2f}, ...)" *)
| MsgWaitingResponse                  (* "      Waiting for command response..." *)
| MsgLogCleared                       (* "Log cleared" *)
| MsgLogPaused                        (* "=== LOG PAUSED ===" *)
| MsgLogResumed                       (* "=== LOG RESUMED ===" *)
| MsgLogExported (filename : string). (* f"Log exported to {filename}" *)

(** The labels that [_update_loop] and [_update_pose_display] configure. *)
Inductive Label : Type :=
| conn_label | track_label | batt_label | latency_label
| pos_x | pos_y | pos_z | rot_r | rot_p | rot_y
| frame_count_label | frame_rate_label | total_frames_label
| frame_drops_label | tracking_lost_label | uptime_label
| pause_log_btn.

Definition Label_eqb (a b : Label) : bool :=
  match a, b with
  | conn_label, conn_label | track_label, track_label
  | batt_label, batt_label | latency_label, latency_label
  | pos_x, pos_x | pos_y, pos_y | pos_z, pos_z
  | rot_r, rot_r | rot_p, rot_p | rot_y, rot_y
  | frame_count_label, frame_count_label
  | frame_rate_label, frame_rate_label
  | total_frames_label, total_frames_label
  | frame_drops_label, frame_drops_label
  | tracking_lost_label, tracking_lost_label
  | uptime_label, uptime_label
  | pause_log_btn, pause_log_btn => true
  | _, _ => false
  end.

(** The [text=] of a label, as the format string that produced it. *)
Inductive LabelText : Type :=
| Txt (s : string)                              (* a literal *)
| TxtInt (before : string) (n : Z) (after : string)   (* f"...{n}..." *)
| TxtFloat (before : string) (x : Q) (digits : nat) (after : string)
                                                (* f"...{x:.1f}..." *)
| TxtUptime (mins secs : Z).                    (* f"Uptime: {m}:{s:02d}" *)

Inductive MessageBox : Type :=
| ShowError (title : string) (detail : string)
| ShowInfo (title : string) (detail : string).

(** Calls made on the QuestNav library object, in order. *)
Inductive QuestNavCall : Type :=
| CommandPeriodic
| SetPose (pose : Pose3d).

(** Attributes that the source creates on first assignment and tests with
    [hasattr]. *)
Inductive DynAttr : Type :=
| _low_battery_warned | _was_connected | _was_tracking.

Definition DynAttr_eqb (a b : DynAttr) : bool :=
  match a, b with
  | _low_battery_warned, _low_battery_warned
  | _was_connected, _was_connected
  | _was_tracking, _was_tracking => true
  | _, _ => false
  end.

(** ** The viewer object *)

Record Viewer : Type := {
  questnav : list QuestNavCall;        (* calls made on [self.questnav] *)
  total_frames_received : Z;
  last_frame_count : Z;
  frame_drops : Z;
  start_time : Q;
  frame_rate_samples : list Q;
  last_frame_time : Q;
  log_paused : bool;
  labels : Label -> LabelText;         (* text of each label *)
  log : list LogMsg;                   (* lines of the log widget *)
  _running : bool;
  attrs : DynAttr -> option bool;      (* None: the attribute is not set *)
  after_calls : list Z;                (* delays passed to [root.after] *)
  messageboxes : list MessageBox;      (* message boxes shown *)
  dialog_open : bool                   (* the custom pose dialog *)
}.

Definition set_questnav (x : list QuestNavCall) (v : Viewer) : Viewer :=
  {| questnav := x; total_frames_received := total_frames_received v;
     last_frame_count := last_frame_count v; frame_drops := frame_drops v;
     start_time := start_time v; frame_rate_samples := frame_rate_samples v;
     last_frame_time := last_frame_time v; log_paused := log_paused v;
     labels := labels v; log := log v; _running := _running v;
     attrs := attrs v; after_calls := after_calls v;
     messageboxes := messageboxes v; dialog_open := dialog_open v |}.

Definition set_total_frames_received (x : Z) (v : Viewer) : Viewer :=
  {| questnav := questnav v; total_frames_received := x;
     last_frame_count := last_frame_count v; frame_drops := frame_drops v;
     start_time := start_time v; frame_rate_samples := frame_rate_samples v;
     last_frame_time := last_frame_time v; log_paused := log_paused v;
     labels := labels v; log := log v; _running := _running v;
     attrs := attrs v; after_calls := after_calls v;
     messageboxes := messageboxes v; dialog_open := dialog_open v |}.

Definition set_last_frame_count (x : Z) (v : Viewer) : Viewer :=
  {| questnav := questnav v; total_frames_received := total_frames_received v;
     last_frame_count := x; frame_drops := frame_drops v;
     start_time := start_time v; frame_rate_samples := frame_rate_samples v;
     last_frame_time := last_frame_time v; log_paused := log_paused v;
     labels := labels v; log := log v; _running := _running v;
     attrs := attrs v; after_calls := after_calls v;
     messageboxes := messageboxes v; dialog_open := dialog_open v |}.

Definition set_frame_drops (x : Z) (v : Viewer) : Viewer :=
  {| questnav := questnav v; total_frames_received := total_frames_received v;
     last_frame_count := last_frame_count v; frame_drops := x;
     start_time := start_time v; frame_rate_samples := frame_rate_samples v;
     last_frame_time := last_frame_time v; log_paused := log_paused v;
     labels := labels v; log := log v; _running := _running v;
     attrs := attrs v; after_calls := after_calls v;
     messageboxes := messageboxes v; dialog_open := dialog_open v |}.

Definition set_frame_rate_samples (x : list Q) (v : Viewer) : Viewer :=
  {| questnav := questnav v; total_frames_received := total_frames_received v;
     last_frame_count := last_frame_count v; frame_drops := frame_drops v;
     start_time := start_time v; frame_rate_samples := x;
     last_frame_time := last_frame_time v; log_paused := log_paused v;
     labels := labels v; log := log v; _running := _running v;
     attrs := attrs v; after_calls := after_calls v;
     messageboxes := messageboxes v; dialog_open := dialog_open v |}.

Definition set_last_frame_time (x : Q) (v : Viewer) : Viewer :=
  {| questnav := questnav v; total_frames_received := total_frames_received v;
     last_frame_count := last_frame_count v; frame_drops := frame_drops v;
     start_time := start_time v; frame_rate_samples := frame_rate_samples v;
     last_frame_time := x; log_paused := log_paused v;
     labels := labels v; log := log v; _running := _running v;
     attrs := attrs v; after_calls := after_calls v;
     messageboxes := messageboxes v; dialog_open := dialog_open v |}.

Definition set_log_paused (x : bool) (v : Viewer) : Viewer :=
  {| questnav := questnav v; total_frames_received := total_frames_received v;
     last_frame_count := last_frame_count v; frame_drops := frame_drops v;
     start_time := start_time v; frame_rate_samples := frame_rate_samples v;
     last_frame_time := last_frame_time v; log_paused := x;
     labels := labels v; log := log v; _running := _running v;
     attrs := attrs v; after_calls := after_calls v;
     messageboxes := messageboxes v; dialog_open := dialog_open v |}.

Definition set_labels (x : Label -> LabelText) (v : Viewer) : Viewer :=
  {| questnav := questnav v; total_frames_received := total_frames_received v;
     last_frame_count := last_frame_count v; frame_drops := frame_drops v;
     start_time := start_time v; frame_rate_samples := frame_rate_samples v;
     last_frame_time := last_frame_time v; log_paused := log_paused v;
     labels := x; log := log v; _running := _running v;
     attrs := attrs v; after_calls := after_calls v;
     messageboxes := messageboxes v; dialog_open := dialog_open v |}.

Definition set_log (x : list LogMsg) (v : Viewer) : Viewer :=
  {| questnav := questnav v; total_frames_received := total_frames_received v;
     last_frame_count := last_frame_count v; frame_drops := frame_drops v;
     start_time := start_time v; frame_rate_samples := frame_rate_samples v;
     last_frame_time := last_frame_time v; log_paused := log_paused v;
     labels := labels v; log := x; _running := _running v;
     attrs := attrs v; after_calls := after_calls v;
     messageboxes := messageboxes v; dialog_open := dialog_open v |}.

Definition set_running (x : bool) (v : Viewer) : Viewer :=
  {| questnav := questnav v; total_frames_received := total_frames_received v;
     last_frame_count := last_frame_count v; frame_drops := frame_drops v;
     start_time := start_time v; frame_rate_samples := frame_rate_samples v;
     last_frame_time := last_frame_time v; log_paused := log_paused v;
     labels := labels v; log := log v; _running := x;
     attrs := attrs v; after_calls := after_calls v;
     messageboxes := messageboxes v; dialog_open := dialog_open v |}.

Definition set_attrs (x : DynAttr -> option bool) (v : Viewer) : Viewer :=
  {| questnav := questnav v; total_frames_received := total_frames_received v;
     last_frame_count := last_frame_count v; frame_drops := frame_drops v;
     start_time := start_time v; frame_rate_samples := frame_rate_samples v;
     last_frame_time := last_frame_time v; log_paused := log_paused v;
     labels := labels v; log := log v; _running := _running v;
     attrs := x; after_calls := after_calls v;
     messageboxes := messageboxes v; dialog_open := dialog_open v |}.

Definition set_after_calls (x : list Z) (v : Viewer) : Viewer :=
  {| questnav := questnav v; total_frames_received := total_frames_received v;
     last_frame_count := last_frame_count v; frame_drops := frame_drops v;
     start_time := start_time v; frame_rate_samples := frame_rate_samples v;
     last_frame_time := last_frame_time v; log_paused := log_paused v;
     labels := labels v; log := log v; _running := _running v;
     attrs := attrs v; after_calls := x;
     messageboxes := messageboxes v; dialog_open := dialog_open v |}.

Definition set_messageboxes (x : list MessageBox) (v : Viewer) : Viewer :=
  {| questnav := questnav v; total_frames_received := total_frames_received v;
     last_frame_count := last_frame_count v; frame_drops := frame_drops v;
     start_time := start_time v; frame_rate_samples := frame_rate_samples v;
     last_frame_time := last_frame_time v; log_paused := log_paused v;
     labels := labels v; log := log v; _running := _running v;
     attrs := attrs v; after_calls := after_calls v;
     messageboxes := x; dialog_open := dialog_open v |}.

Definition set_dialog_open (x : bool) (v : Viewer) : Viewer :=
  {| questnav := questnav v; total_frames_received := total_frames_received v;
     last_frame_count := last_frame_count v; frame_drops := frame_drops v;
     start_time := start_time v; frame_rate_samples := frame_rate_samples v;
     last_frame_time := last_frame_time v; log_paused := log_paused v;
     labels := labels v; log := log v; _running := _running v;
     attrs := attrs v; after_calls := after_calls v;
     messageboxes := messageboxes v; dialog_open := x |}.

(** [label.config(text=t)] (the colour is not modelled). *)
Definition config (l : Label) (t : LabelText) (v : Viewer) : Viewer :=
  set_labels (fun l' => if Label_eqb l l' then t else labels v l') v.

(** [hasattr(self, a)], [self.a] and [self.a = b]. *)
Definition hasattr (v : Viewer) (a : DynAttr) : bool :=
  match attrs v a with Some _ => true | None => false end.

Definition py_getattr (v : Viewer) (a : DynAttr) : Result bool :=
  match attrs v a with
  | Some b => Ok b
  | None => Raise AttributeError
  end.

Definition py_setattr (a : DynAttr) (b : bool) (v : Viewer) : Viewer :=
  set_attrs (fun a' => if DynAttr_eqb a a' then Some b else attrs v a') v.

(** [QuestNavViewer._log] *)
Definition _log (msg : LogMsg) (v : Viewer) : Viewer :=
  if log_paused v then v else set_log (log v ++ [msg]) v.

(** ** The collaborators of the viewer

    [PoseFrame] is declared by the [questnav] package and [float],
    [math.radians] and [math.degrees] by Python; the viewer only reads
    [frame.frame_count] and [frame.quest_pose_3d] and compares frames with
    [==].  They are parameters of the model. *)

Class Library : Type := {
  PoseFrame : Type;
  frame_count : PoseFrame -> Z;
  quest_pose_3d : PoseFrame -> Pose3d;
  frame_eq : PoseFrame -> PoseFrame -> bool;   (* [frame == other] *)
  py_float : string -> option Q;               (* [float(s)]; None: ValueError *)
  math_radians : Q -> Q;
  math_degrees : Q -> Q
}.

(** What is assumed of [==] on frames: a frame equals itself, and equal frames
    carry the same frame count (true of identity and of field-wise equality). *)
Class LibraryLaws (L : Library) : Prop := {
  frame_eq_refl : forall f : PoseFrame, frame_eq f f = true;
  frame_eq_count : forall f g : PoseFrame,
      frame_eq f g = true -> frame_count f = frame_count g
}.

(** An event of [conn_listener.readQueue()]. *)
Record ConnEvent : Type := {
  is_kConnected : bool;        (* [event.is_(EventFlags.kConnected)] *)
  is_kDisconnected : bool;     (* [event.is_(EventFlags.kDisconnected)] *)
  remote_ip : string           (* [event.data.remote_ip] *)
}.

(** What one tick reads from the clock and from the collaborators, one field
    per call of the source. *)
Record Readings `{Library} : Type := {
  time_time : Q;
  readQueue : list ConnEvent;
  get_all_unread_pose_frames : list PoseFrame;
  is_connected : bool;
  is_tracking : bool;
  get_battery_percent : option Z;
  get_latency : Q;
  get_frame_count : option Z;
  get_tracking_lost_counter : option Z
}.

(** [a and b], where [b] is evaluated only when [a] is true. *)
Definition py_and (a : bool) (b : Result bool) : Result bool :=
  if a then b else Ok false.

Section Code.
Context `{Library}.

(** [QuestNavViewer._update_pose_display] *)
Definition _update_pose_display (pose : Pose3d) (v : Viewer) : Viewer :=
  let t := translation pose in
  let r := rotation pose in
  let v := config pos_x (TxtFloat "X: " (tX t) 3 " m") v in
  let v := config pos_y (TxtFloat "Y: " (tY t) 3 " m") v in
  let v := config pos_z (TxtFloat "Z: " (tZ t) 3 " m") v in
  let v := config rot_r (TxtFloat "Roll:  " (math_degrees (rX r)) 1 "°") v in
  let v := config rot_p (TxtFloat "Pitch: " (math_degrees (rY r)) 1 "°") v in
  config rot_y (TxtFloat "Yaw:   " (math_degrees (rZ r)) 1 "°") v.

(** The body of [for event in self.conn_listener.readQueue()]. *)
Definition log_conn_event (v : Viewer) (event : ConnEvent) : Viewer :=
  if is_kConnected event then _log (MsgConnectedFrom (remote_ip event)) v
  else if is_kDisconnected event then _log MsgDisconnected v
  else v.

(** Lines 230-237: "Detect frame drops (only check first frame in batch)". *)
Definition detect_frame_drops (frames : list PoseFrame) (frame : PoseFrame)
    (v : Viewer) : Result Viewer :=
  check <- py_and (last_frame_count v >? 0)
                  (first <- py_getitem frames 0 ;; Ok (frame_eq frame first)) ;;
  if check then
    let expected := last_frame_count v + 1 in
    if frame_count frame >? expected then
      let drops := frame_count frame - expected in
      let v := set_frame_drops (frame_drops v + drops) v in
      (* Only log significant drops *)
      if drops >? 5 then Ok (_log (WarnDropped drops) v) else Ok v
    else Ok v
  else Ok v.

(** Lines 241-248: "Calculate frame rate". *)
Definition calculate_frame_rate (current_time : Q) (v : Viewer) : Result Viewer :=
  if Qgtb (last_frame_time v) 0 then
    let dt := (current_time - last_frame_time v)%Q in
    if Qgtb dt 0 then
      fps <- py_truediv 1 dt ;;
      let v := set_frame_rate_samples (frame_rate_samples v ++ [fps]) v in
      if 10 <? Z.of_nat (List.length (frame_rate_samples v)) then
        rest <- py_pop0 (frame_rate_samples v) ;;
        Ok (set_frame_rate_samples rest v)
      else Ok v
    else Ok v
  else Ok v.

(** The body of [for frame in frames] (lines 228-253). *)
Definition process_frame (current_time : Q) (frames : list PoseFrame)
    (frame : PoseFrame) (v : Viewer) : Result Viewer :=
  let v := set_total_frames_received (total_frames_received v + 1) v in
  v <- detect_frame_drops frames frame v ;;
  let v := set_last_frame_count (frame_count frame) v in
  v <- calculate_frame_rate current_time v ;;
  let v := set_last_frame_time current_time v in
  Ok (_update_pose_display (quest_pose_3d frame) v).

(** [for frame in frames: ...]: [todo] is what is left to iterate, [frames]
    the whole list, which the body indexes. *)
Fixpoint for_frames (current_time : Q) (frames todo : list PoseFrame)
    (v : Viewer) : Result Viewer :=
  match todo with
  | [] => Ok v
  | frame :: todo' =>
      v' <- process_frame current_time frames frame v ;;
      for_frames current_time frames todo' v'
  end.

(** Lines 256-260. *)
Definition show_connected (connected : bool) (v : Viewer) : Viewer :=
  if connected then config conn_label (Txt "[X] Connected") v
  else config conn_label (Txt "[ ] Disconnected") v.

(** Lines 263-267. *)
Definition show_tracking (tracking : bool) (v : Viewer) : Viewer :=
  if tracking then config track_label (Txt "[X] Tracking") v
  else config track_label (Txt "[ ] Not Tracking") v.

(** Lines 270-276. *)
Definition show_battery (battery : option Z) (v : Viewer) : Viewer :=
  match battery with
  | Some battery =>
      let v := config batt_label (TxtInt "Battery: " battery "%") v in
      (* Warn on low battery *)
      if (battery <? 20) && negb (hasattr v _low_battery_warned) then
        let v := _log (WarnLowBattery battery) v in
        py_setattr _low_battery_warned true v
      else v
  | None => v
  end.

(** Lines 279-280. *)
Definition show_latency (latency : Q) (v : Viewer) : Viewer :=
  config latency_label (TxtFloat "Latency: " latency 1 " ms") v.

(** Lines 283-285. *)
Definition show_frame_count (frame_count : option Z) (v : Viewer) : Viewer :=
  match frame_count with
  | Some n => config frame_count_label (TxtInt "Frame Count: " n "") v
  | None => v
  end.

(** Lines 288-290. *)
Definition show_tracking_lost (tracking_lost : option Z) (v : Viewer) : Viewer :=
  match tracking_lost with
  | Some n => config tracking_lost_label (TxtInt "Tracking Lost Events: " n "") v
  | None => v
  end.

(** Lines 293-294. *)
Definition show_stats (v : Viewer) : Viewer :=
  let v := config total_frames_label
             (TxtInt "Total Received: " (total_frames_received v) "") v in
  config frame_drops_label (TxtInt "Frame Drops: " (frame_drops v) "") v.

(** Lines 297-299: "Calculate average frame rate". *)
Definition show_average_rate (v : Viewer) : Result Viewer :=
  match frame_rate_samples v with
  | [] => Ok v
  | _ :: _ =>
      avg_fps <- py_truediv (py_sum (frame_rate_samples v))
                            (py_len (frame_rate_samples v)) ;;
      Ok (config frame_rate_label (TxtFloat "Frame Rate: " avg_fps 1 " Hz") v)
  end.

(** Lines 302-305. *)
Definition show_uptime (current_time : Q) (v : Viewer) : Viewer :=
  let uptime_seconds := py_int (current_time - start_time v)%Q in
  let uptime_mins := uptime_seconds / 60 in
  let uptime_secs := uptime_seconds mod 60 in
  config uptime_label (TxtUptime uptime_mins uptime_secs) v.

(** Lines 308-313: "Log connection state changes". *)
Definition log_connection_change (connected : bool) (v : Viewer) : Result Viewer :=
  v <- (if hasattr v _was_connected then
          started <- py_and connected
                       (was <- py_getattr v _was_connected ;; Ok (negb was)) ;;
          if started then Ok (_log OkQuestConnected v)
          else
            lost <- py_and (negb connected) (py_getattr v _was_connected) ;;
            if lost then Ok (_log WarnQuestDisconnected v) else Ok v
        else Ok v) ;;
  Ok (py_setattr _was_connected connected v).

(** Lines 316-321: "Log tracking state changes". *)
Definition log_tracking_change (tracking : bool) (v : Viewer) : Result Viewer :=
  v <- (if hasattr v _was_tracking then
          started <- py_and tracking
                       (was <- py_getattr v _was_tracking ;; Ok (negb was)) ;;
          if started then Ok (_log OkTrackingStarted v)
          else
            lost <- py_and (negb tracking) (py_getattr v _was_tracking) ;;
            if lost then Ok (_log WarnTrackingLost v) else Ok v
        else Ok v) ;;
  Ok (py_setattr _was_tracking tracking v).

(** [QuestNavViewer._update_loop]: one tick. *)
Definition _update_loop (r : Readings) (v : Viewer) : Result Viewer :=
  if negb (_running v) then Ok v else
  let current_time := time_time r in
  (* Check for connection events (for logging) *)
  let v := fold_left log_conn_event (readQueue r) v in
  let v := set_questnav (questnav v ++ [CommandPeriodic]) v in
  let frames := get_all_unread_pose_frames r in
  v <- for_frames current_time frames frames v ;;
  let connected := is_connected r in
  let v := show_connected connected v in
  let tracking := is_tracking r in
  let v := show_tracking tracking v in
  let v := show_battery (get_battery_percent r) v in
  let v := show_latency (get_latency r) v in
  let v := show_frame_count (get_frame_count r) v in
  let v := show_tracking_lost (get_tracking_lost_counter r) v in
  let v := show_stats v in
  v <- show_average_rate v ;;
  let v := show_uptime current_time v in
  v <- log_connection_change connected v ;;
  v <- log_tracking_change tracking v ;;
  (* Schedule next update (50ms = 20 Hz) *)
  Ok (set_after_calls (after_calls v ++ [50]) v).

(** [QuestNavViewer._reset_pose_origin]; the call of [set_pose] is recorded,
    its outcome belongs to the library. *)
Definition _reset_pose_origin (v : Viewer) : Viewer :=
  let v := set_questnav (questnav v ++ [SetPose Pose3d_origin]) v in
  let v := _log CmdResetOrigin v in
  _log MsgWaitingResponse v.

(** [QuestNavViewer._reset_pose_custom] opens the dialog whose button runs
    [send_custom_pose]. *)
Definition _reset_pose_custom (v : Viewer) : Viewer :=
  set_dialog_open true v.

(** [float(entry.get())] *)
Definition float_of_entry (s : string) : Result Q :=
  match py_float s with
  | Some x => Ok x
  | None => Raise (ValueError s)
  end.

(** The [try] block of [send_custom_pose] (lines 394-410). *)
Definition send_custom_pose_try (x_entry y_entry z_entry yaw_entry : string)
    (v : Viewer) : Result Viewer :=
  x <- float_of_entry x_entry ;;
  y <- float_of_entry y_entry ;;
  z <- float_of_entry z_entry ;;
  yaw_deg <- float_of_entry yaw_entry ;;
  let translation := {| tX := x; tY := y; tZ := z |} in
  let rotation := {| rX := 0; rY := 0; rZ := math_radians yaw_deg |} in
  let custom_pose := {| translation := translation; rotation := rotation |} in
  let v := set_questnav (questnav v ++ [SetPose custom_pose]) v in
  let v := _log (CmdResetCustom x y z yaw_deg) v in
  let v := _log MsgWaitingResponse v in
  Ok (set_dialog_open false v).

(** [send_custom_pose]: [except ValueError] shows the error box; nothing of
    the [try] block has changed the viewer when [float] raises. *)
Definition send_custom_pose (x_entry y_entry z_entry yaw_entry : string)
    (v : Viewer) : Result Viewer :=
  match send_custom_pose_try x_entry y_entry z_entry yaw_entry v with
  | Raise (ValueError e) =>
      Ok (set_messageboxes (messageboxes v ++ [ShowError "Invalid Input" e]) v)
  | other => other
  end.

(** [QuestNavViewer._clear_log] *)
Definition _clear_log (v : Viewer) : Viewer :=
  let v := set_log [] v in
  if negb (log_paused v) then _log MsgLogCleared v else v.

(** [QuestNavViewer._toggle_log_pause] *)
Definition _toggle_log_pause (v : Viewer) : Viewer :=
  let v := set_log_paused (negb (log_paused v)) v in
  if log_paused v then
    let v := config pause_log_btn (Txt "Resume Log") v in
    set_log (log v ++ [MsgLogPaused]) v
  else
    let v := config pause_log_btn (Txt "Pause Log") v in
    _log MsgLogResumed v.

(** [QuestNavViewer._export_log]: [filename] is what the file dialog returns
    (empty when cancelled), [written] whether writing the file succeeded. *)
Definition _export_log (filename : string) (written : bool) (v : Viewer) : Viewer :=
  if String.eqb filename EmptyString then v
  else if written then
    let v := set_messageboxes
               (messageboxes v ++ [ShowInfo "Export Successful" filename]) v in
    if negb (log_paused v) then _log (MsgLogExported filename) v else v
  else set_messageboxes
         (messageboxes v ++ [ShowError "Export Failed" filename]) v.

(** [QuestNavViewer.run]'s [finally]. *)
Definition stop (v : Viewer) : Viewer := set_running false v.

(** The label texts that [_setup_ui] creates. *)
Definition initial_labels (l : Label) : LabelText :=
  match l with
  | conn_label => Txt "[ ] Disconnected"
  | track_label => Txt "[ ] Not Tracking"
  | batt_label => Txt "Battery: ---%"
  | latency_label => Txt "Latency: --- ms"
  | pos_x => Txt "X: ---"
  | pos_y => Txt "Y: ---"
  | pos_z => Txt "Z: ---"
  | rot_r => Txt "Roll:  ---"
  | rot_p => Txt "Pitch: ---"
  | rot_y => Txt "Yaw:   ---"
  | frame_count_label => Txt "Frame Count: 0"
  | frame_rate_label => Txt "Frame Rate: --- Hz"
  | total_frames_label => Txt "Total Received: 0"
  | frame_drops_label => Txt "Frame Drops: 0"
  | tracking_lost_label => Txt "Tracking Lost Events: 0"
  | uptime_label => Txt "Uptime: 0:00"
  | pause_log_btn => Txt "Pause Log"
  end.

(** [QuestNavViewer.__init__] up to, and without, its final call of
    [_update_loop]; [now] is what [time.time()] returns. *)
Definition new_viewer (now : Q) : Viewer :=
  {| questnav := [];
     total_frames_received := 0;
     last_frame_count := 0;
     frame_drops := 0;
     start_time := now;
     frame_rate_samples := [];
     last_frame_time := 0;
     log_paused := false;
     labels := initial_labels;
     log := [MsgInitialized; MsgListening; MsgWaiting];
     _running := true;
     attrs := fun _ => None;
     after_calls := [];
     messageboxes := [];
     dialog_open := false |}.

(** What can happen to a viewer: a scheduler tick or a user action. *)
Inductive Action : Type :=
| Tick (r : Readings)
| ResetPoseOrigin
| ResetPoseCustom
| SendCustomPose (x_entry y_entry z_entry yaw_entry : string)
| ClearLog
| ToggleLogPause
| ExportLog (filename : string) (written : bool)
| Stop.

Definition step (a : Action) (v : Viewer) : Result Viewer :=
  match a with
  | Tick r => _update_loop r v
  | ResetPoseOrigin => Ok (_reset_pose_origin v)
  | ResetPoseCustom => Ok (_reset_pose_custom v)
  | SendCustomPose x y z yaw => send_custom_pose x y z yaw v
  | ClearLog => Ok (_clear_log v)
  | ToggleLogPause => Ok (_toggle_log_pause v)
  | ExportLog filename written => Ok (_export_log filename written v)
  | Stop => Ok (stop v)
  end.

Fixpoint run (acts : list Action) (v : Viewer) : Result Viewer :=
  match acts with
  | [] => Ok v
  | a :: acts' => v' <- step a v ;; run acts' v'
  end.

(** A viewer is reachable when a run from a fresh viewer ends in it. *)
Definition reachable (v : Viewer) : Prop :=
  exists (now : Q) (acts : list Action), run acts (new_viewer now) = Ok v.

(** The lines that a step appended to the log. *)
Definition new_log (before after : Viewer) : list LogMsg :=
  skipn (List.length (log before)) (log after).

End Code.

(** ** Notions used to state the properties *)

(** The window after one more sample: the code appends, then drops the head
    once the length has passed 10. *)
Definition window_push (fps : Q) (samples : list Q) : list Q :=
  if 10 <? Z.of_nat (List.length (samples ++ [fps]))
  then tl (samples ++ [fps]) else samples ++ [fps].

(** The sample that a frame observed at [current_time] contributes, when the
    previous frame was observed at [last_time]. *)
Definition rate_sample (current_time last_time : Q) : option Q :=
  if Qgtb last_time 0 then
    if Qgtb (current_time - last_time)%Q 0
    then Some (1 / (current_time - last_time))%Q else None
  else None.

(** [m] is the arithmetic mean of the non-empty list [l]. *)
Definition is_mean (m : Q) (l : list Q) : Prop :=
  l <> [] /\
  (m * inject_Z (Z.of_nat (List.length l)) == fold_right Qplus 0 l)%Q.

(** What the code adds to [frame_drops] when the drop check runs on a frame
    with sequence [count] while the last recorded sequence is [last]. *)
Definition gap (last count : Z) : Z :=
  if (last >? 0) && (count >? last + 1) then count - (last + 1) else 0.

(** What [_log] writes for [msgs], given the pause flag. *)
Definition written (paused : bool) (msgs : list LogMsg) : list LogMsg :=
  if paused then [] else msgs.

(** The edge event of a flag: none when the previous value is unknown or
    equal, [started] on false->true, [lost] on true->false. *)
Definition edge_event (was : option bool) (flag : bool)
    (started lost : LogMsg) : list LogMsg :=
  match was with
  | None => []
  | Some false => if flag then [started] else []
  | Some true => if flag then [] else [lost]
  end.

(** The wording of the specification for the same event: the flag starts out
    false, so an unknown previous value counts as false. *)
Definition spec_edge_event (was : option bool) (flag : bool)
    (started lost : LogMsg) : list LogMsg :=
  edge_event (Some (match was with Some b => b | None => false end))
             flag started lost.

(** The edge events of a flag over consecutive ticks, one list per tick. *)
Fixpoint edge_trace (started lost : LogMsg) (was : option bool)
    (flags : list bool) : list (list LogMsg) :=
  match flags with
  | [] => []
  | flag :: more =>
      edge_event was flag started lost
      :: edge_trace started lost (Some flag) more
  end.

Definition is_connection_edge (m : LogMsg) : bool :=
  match m with
  | OkQuestConnected | WarnQuestDisconnected => true
  | _ => false
  end.

Definition is_tracking_edge (m : LogMsg) : bool :=
  match m with
  | OkTrackingStarted | WarnTrackingLost => true
  | _ => false
  end.

Definition is_low_battery (m : LogMsg) : bool :=
  match m with
  | WarnLowBattery _ => true
  | _ => false
  end.

(** [l] is strictly increasing. *)
Fixpoint increasing (l : list Z) : Prop :=
  match l with
  | [] => True
  | a :: rest =>
      match rest with
      | [] => True
      | b :: _ => a < b /\ increasing rest
      end
  end.

(** Every non-empty batch but the first starts one above the last sequence
    of the frames before it; [seen] is that last sequence, if any. *)
Fixpoint contiguous (seen : option Z) (batches : list (list Z)) : Prop :=
  match batches with
  | [] => True
  | [] :: more => contiguous seen more
  | (c :: rest) :: more =>
      match seen with
      | Some l => c = l + 1
      | None => True
      end /\ contiguous (Some (last rest c)) more
  end.

(** A viewer with new label texts, more log lines (subject to the pause flag)
    and new dynamic attributes: what the display part of a tick writes. *)
Definition upd (L : Label -> LabelText) (M : list LogMsg)
    (A : DynAttr -> option bool) (v : Viewer) : Viewer :=
  set_attrs A (set_log (log v ++ written (log_paused v) M) (set_labels L v)).

Definition is_pose_label (l : Label) : bool :=
  match l with
  | pos_x | pos_y | pos_z | rot_r | rot_p | rot_y => true
  | _ => false
  end.

(** What the frame loop leaves alone: it writes the counters, the window, the
    pose labels and drop warnings only. *)
Record loop_frame (v v' : Viewer) : Prop := {
  lf_questnav : questnav v' = questnav v;
  lf_start : start_time v' = start_time v;
  lf_paused : log_paused v' = log_paused v;
  lf_running : _running v' = _running v;
  lf_attrs : attrs v' = attrs v;
  lf_after : after_calls v' = after_calls v;
  lf_boxes : messageboxes v' = messageboxes v;
  lf_dialog : dialog_open v' = dialog_open v;
  lf_labels : forall l, is_pose_label l = false -> labels v' l = labels v l;
  lf_log : exists ds,
      log v' = log v ++ written (log_paused v) (map WarnDropped ds)
}.

(** The window holds at most 10 samples and the frame-rate label shows their
    average, or the dashes of [_setup_ui] while there is no sample. *)
Definition window_ok (v : Viewer) : Prop :=
  (List.length (frame_rate_samples v) <= 10)%nat /\
  labels v frame_rate_label =
  match frame_rate_samples v with
  | [] => Txt "Frame Rate: --- Hz"
  | _ :: _ =>
      TxtFloat "Frame Rate: "
        (py_sum (frame_rate_samples v) / py_len (frame_rate_samples v))%Q
        1 " Hz"
  end.

(** What the user actions leave alone. *)
Record user_frame (v v' : Viewer) : Prop := {
  uf_total : total_frames_received v' = total_frames_received v;
  uf_last : last_frame_count v' = last_frame_count v;
  uf_drops : frame_drops v' = frame_drops v;
  uf_samples : frame_rate_samples v' = frame_rate_samples v;
  uf_time : last_frame_time v' = last_frame_time v;
  uf_start : start_time v' = start_time v;
  uf_attrs : attrs v' = attrs v;
  uf_labels : forall l, l <> pause_log_btn -> labels v' l = labels v l;
  uf_running : _running v' = true -> _running v = true
}.

(** The last sequence seen so far, as a list of at most one element. *)
Definition seen_list (seen : option Z) : list Z :=
  match seen with
  | Some l => [l]
  | None => []
  end.

Section Streams.
Context `{Library}.

(** The lines that the connection events of a tick ask [_log] to write. *)
Definition conn_msgs (events : list ConnEvent) : list LogMsg :=
  flat_map (fun event =>
              if is_kConnected event then [MsgConnectedFrom (remote_ip event)]
              else if is_kDisconnected event then [MsgDisconnected]
              else []) events.

(** The low-battery warning of a tick, if any; [warned] tells whether the
    attribute [_low_battery_warned] is set. *)
Definition low_battery_msgs (warned : bool) (battery : option Z) : list LogMsg :=
  match battery with
  | Some b => if (b <? 20) && negb warned then [WarnLowBattery b] else []
  | None => []
  end.

(** What the display part of a tick (lines 255-321) asks [_log] to write,
    when it starts from [v]. *)
Definition tick_msgs (r : Readings) (v : Viewer) : list LogMsg :=
  low_battery_msgs (hasattr v _low_battery_warned) (get_battery_percent r)
  ++ edge_event (attrs v _was_connected) (is_connected r)
       OkQuestConnected WarnQuestDisconnected
  ++ edge_event (attrs v _was_tracking) (is_tracking r)
       OkTrackingStarted WarnTrackingLost.

(** The dynamic attributes after the display part of a tick. *)
Definition tick_attrs (r : Readings) (v : Viewer) (a : DynAttr) : option bool :=
  match a with
  | _low_battery_warned =>
      match low_battery_msgs (hasattr v _low_battery_warned)
              (get_battery_percent r) with
      | [] => attrs v _low_battery_warned
      | _ :: _ => Some true
      end
  | _was_connected => Some (is_connected r)
  | _was_tracking => Some (is_tracking r)
  end.

(** The label texts after a tick: [old] are the texts when the display part
    starts, [v'] is the viewer after the tick. *)
Definition tick_labels (r : Readings) (old : Label -> LabelText) (v' : Viewer)
    (l : Label) : LabelText :=
  match l with
  | conn_label =>
      if is_connected r then Txt "[X] Connected" else Txt "[ ] Disconnected"
  | track_label =>
      if is_tracking r then Txt "[X] Tracking" else Txt "[ ] Not Tracking"
  | batt_label =>
      match get_battery_percent r with
      | Some b => TxtInt "Battery: " b "%"
      | None => old batt_label
      end
  | latency_label => TxtFloat "Latency: " (get_latency r) 1 " ms"
  | frame_count_label =>
      match get_frame_count r with
      | Some n => TxtInt "Frame Count: " n ""
      | None => old frame_count_label
      end
  | tracking_lost_label =>
      match get_tracking_lost_counter r with
      | Some n => TxtInt "Tracking Lost Events: " n ""
      | None => old tracking_lost_label
      end
  | total_frames_label => TxtInt "Total Received: " (total_frames_received v') ""
  | frame_drops_label => TxtInt "Frame Drops: " (frame_drops v') ""
  | frame_rate_label =>
      match frame_rate_samples v' with
      | [] => old frame_rate_label
      | _ :: _ =>
          TxtFloat "Frame Rate: "
            (py_sum (frame_rate_samples v') / py_len (frame_rate_samples v'))%Q
            1 " Hz"
      end
  | uptime_label =>
      TxtUptime (py_int (time_time r - start_time v')%Q / 60)
                (py_int (time_time r - start_time v')%Q mod 60)
  | other => old other
  end.

(** The viewer when the frame loop of a tick starts (lines 208-224). *)
Definition before_frames (r : Readings) (v : Viewer) : Viewer :=
  let v := fold_left log_conn_event (readQueue r) v in
  set_questnav (questnav v ++ [CommandPeriodic]) v.

(** A tick of a running viewer [v]: [v1] is the viewer after the frame loop,
    [v'] the viewer after the tick. *)
Record tick_effect (r : Readings) (v v1 v' : Viewer) : Prop := {
  te_loop :
    for_frames (time_time r) (get_all_unread_pose_frames r)
      (get_all_unread_pose_frames r) (before_frames r v) = Ok v1;
  te_total :
    total_frames_received v' =
    total_frames_received v
    + Z.of_nat (List.length (get_all_unread_pose_frames r));
  te_last :
    last_frame_count v' =
    match get_all_unread_pose_frames r with
    | [] => last_frame_count v
    | f :: rest => frame_count (last rest f)
    end;
  te_time :
    last_frame_time v' =
    match get_all_unread_pose_frames r with
    | [] => last_frame_time v
    | _ :: _ => time_time r
    end;
  te_samples :
    frame_rate_samples v' =
    match get_all_unread_pose_frames r with
    | [] => frame_rate_samples v
    | _ :: _ =>
        match rate_sample (time_time r) (last_frame_time v) with
        | Some fps => window_push fps (frame_rate_samples v)
        | None => frame_rate_samples v
        end
    end;
  te_drops : frame_drops v' = frame_drops v1;
  te_paused : log_paused v' = log_paused v;
  te_running : _running v' = _running v;
  te_start : start_time v' = start_time v;
  te_boxes : messageboxes v' = messageboxes v;
  te_dialog : dialog_open v' = dialog_open v;
  te_questnav : questnav v' = questnav v ++ [CommandPeriodic];
  te_after : after_calls v' = after_calls v ++ [50];
  te_attrs : forall a, attrs v' a = tick_attrs r v a;
  te_log :
    exists ds,
      log v1 = log v ++ written (log_paused v)
                          (conn_msgs (readQueue r) ++ map WarnDropped ds) /\
      log v' = log v ++ written (log_paused v)
                          (conn_msgs (readQueue r) ++ map WarnDropped ds
                           ++ tick_msgs r v);
  te_labels : forall l, labels v' l = tick_labels r (labels v1) v' l;
  te_labels1 : forall l, is_pose_label l = false -> labels v1 l = labels v l
}.

(** The batches of frame sequences that the ticks of a run drain, in order. *)
Fixpoint batches_of (acts : list Action) : list (list Z) :=
  match acts with
  | [] => []
  | Tick r :: more => map frame_count (get_all_unread_pose_frames r) :: batches_of more
  | _ :: more => batches_of more
  end.

(** The viewers after each tick of a run of ticks only. *)
Fixpoint ticks (rs : list Readings) (v : Viewer) : Result (list Viewer) :=
  match rs with
  | [] => Ok []
  | r :: more =>
      v' <- _update_loop r v ;;
      vs <- ticks more v' ;;
      Ok (v' :: vs)
  end.

(** The edge events of one kind written by each tick of a run of ticks. *)
Fixpoint edges_per_tick (kind : LogMsg -> bool) (v : Viewer)
    (vs : list Viewer) : list (list LogMsg) :=
  match vs with
  | [] => []
  | v' :: more => filter kind (new_log v v') :: edges_per_tick kind v' more
  end.

End Streams.

(** ** A small instance of the collaborators, to run the model *)

(** Frames reduced to their frame count, compared by value; [float] reads a
    few literals and rejects the rest. *)
Definition sample_float (s : string) : option Q :=
  if String.eqb s "0.0" then Some 0%Q
  else if String.eqb s "1.0" then Some 1%Q
  else if String.eqb s "2.5" then Some (5 # 2)%Q
  else if String.eqb s "90" then Some 90%Q
  else None.

#[export] Instance sample_library : Library := {|
  PoseFrame := Z;
  frame_count := fun f => f;
  quest_pose_3d := fun _ => Pose3d_origin;
  frame_eq := Z.eqb;
  py_float := sample_float;
  math_radians := fun d => (d * (355 # 113) / 180)%Q;
  math_degrees := fun x => (x * 180 / (355 # 113))%Q
|}.

(** Readings of a tick at time [now] that drains [batch]. *)
Definition sample_readings (now : Q) (batch : list Z) (connected tracking : bool)
    (battery lost_counter : option Z) : Readings :=
  {| time_time := now;
     readQueue := [];
     get_all_unread_pose_frames := batch;
     is_connected := connected;
     is_tracking := tracking;
     get_battery_percent := battery;
     get_latency := 12%Q;
     get_frame_count := None;
     get_tracking_lost_counter := lost_counter |}.

(** A viewer in the middle of a session: 7 as the last sequence, tracking and
    connected at the previous tick. *)
Definition sample_viewer : Viewer :=
  {| questnav := [];
     total_frames_received := 7;
     last_frame_count := 7;
     frame_drops := 0;
     start_time := 100%Q;
     frame_rate_samples := [20%Q];
     last_frame_time := 101%Q;
     log_paused := false;
     labels := initial_labels;
     log := [];
     _running := true;
     attrs := fun a => match a with
                       | _low_battery_warned => None
                       | _ => Some true
                       end;
     after_calls := [];
     messageboxes := [];
     dialog_open := true |}.

(** ** Notions for the properties of the rest of the viewer *)

Definition is_command_periodic (c : QuestNavCall) : bool :=
  match c with
  | CommandPeriodic => true
  | SetPose _ => false
  end.

Definition is_set_pose (c : QuestNavCall) : bool :=
  match c with
  | CommandPeriodic => false
  | SetPose _ => true
  end.

Definition is_dropped (m : LogMsg) : bool :=
  match m with
  | WarnDropped _ => true
  | _ => false
  end.

(** What the counter labels show: the literal zero of [_setup_ui], or the
    number that a tick has written. *)
Definition shows (text : LabelText) (before : string) (n : Z) : Prop :=
  text = TxtInt before n "" \/
  (n = 0 /\ text = Txt (before ++ "0")).

(** The two counter labels agree with the counters. *)
Definition counters_shown (v : Viewer) : Prop :=
  shows (labels v total_frames_label) "Total Received: "
    (total_frames_received v) /\
  shows (labels v frame_drops_label) "Frame Drops: " (frame_drops v).

(** Every sample of the window is a positive rate. *)
Definition samples_positive (v : Viewer) : Prop :=
  Forall (fun fps => (0 < fps)%Q) (frame_rate_samples v).

(** What a user action does to the scheduler, the library calls, the pause
    flag and the run flag. *)
Record user_effect (v v' : Viewer) : Prop := {
  ue_after : after_calls v' = after_calls v;
  ue_periodic :
    filter is_command_periodic (questnav v') =
    filter is_command_periodic (questnav v);
  ue_running : _running v' = true -> _running v = true
}.

Section PoseText.
Context `{Library}.

(** The texts that [_update_pose_display] writes for [pose]. *)
Definition pose_text (pose : Pose3d) (l : Label) : option LabelText :=
  match l with
  | pos_x => Some (TxtFloat "X: " (tX (translation pose)) 3 " m")
  | pos_y => Some (TxtFloat "Y: " (tY (translation pose)) 3 " m")
  | pos_z => Some (TxtFloat "Z: " (tZ (translation pose)) 3 " m")
  | rot_r => Some (TxtFloat "Roll:  " (math_degrees (rX (rotation pose))) 1 "°")
  | rot_p => Some (TxtFloat "Pitch: " (math_degrees (rY (rotation pose))) 1 "°")
  | rot_y => Some (TxtFloat "Yaw:   " (math_degrees (rZ (rotation pose))) 1 "°")
  | _ => None
  end.

(** The number of frames that the ticks of a run drain. *)
Definition frames_drained (acts : list Action) : Z :=
  Z.of_nat (List.length (List.concat (batches_of acts))).

Definition is_stop (a : Action) : bool :=
  match a with
  | Stop => true
  | _ => false
  end.

Definition is_clear_log (a : Action) : bool :=
  match a with
  | ClearLog => true
  | _ => false
  end.

Definition is_toggle (a : Action) : bool :=
  match a with
  | ToggleLogPause => true
  | _ => false
  end.

(** The pose that [send_custom_pose] builds from four entries, when all of
    them are numbers. *)
Definition custom_pose (x_entry y_entry z_entry yaw_entry : string)
    : option Pose3d :=
  match py_float x_entry, py_float y_entry, py_float z_entry,
        py_float yaw_entry with
  | Some x, Some y, Some z, Some yaw_deg =>
      Some {| translation := {| tX := x; tY := y; tZ := z |};
              rotation := {| rX := 0; rY := 0; rZ := math_radians yaw_deg |} |}
  | _, _, _, _ => None
  end.

(** The poses that the user actions of a run ask for, in order. *)
Fixpoint poses_of (acts : list Action) : list Pose3d :=
  match acts with
  | [] => []
  | ResetPoseOrigin :: more => Pose3d_origin :: poses_of more
  | SendCustomPose x y z yaw :: more =>
      match custom_pose x y z yaw with
      | Some pose => pose :: poses_of more
      | None => poses_of more
      end
  | _ :: more => poses_of more
  end.

End PoseText.

(** * Properties *)

(** ** Arithmetic of the guards *)

Lemma Qgtb_true (a b : Q) : Qgtb a b = true -> (b < a)%Q.
Proof.
  unfold Qgtb. intros Hgt. apply Qnot_le_lt. intros Hle.
  apply Qle_bool_iff in Hle. rewrite Hle in Hgt. discriminate.
Qed.

Lemma Qgtb_diff_self (x : Q) : Qgtb (x - x) 0 = false.
Proof.
  unfold Qgtb. apply negb_false_iff, Qle_bool_iff.
  setoid_replace (x - x)%Q with 0%Q by ring. apply Qle_refl.
Qed.

Lemma py_truediv_positive (a b : Q) :
  Qgtb b 0 = true -> py_truediv a b = Ok (a / b)%Q.
Proof.
  intros Hpos. unfold py_truediv.
  destruct (Qeq_bool b 0) eqn:Hz; [|reflexivity].
  apply Qeq_bool_eq in Hz. apply Qgtb_true in Hpos.
  rewrite Hz in Hpos. destruct (Qlt_irrefl _ Hpos).
Qed.

Lemma rate_sample_same_time (t : Q) : rate_sample t t = None.
Proof.
  unfold rate_sample. rewrite Qgtb_diff_self. destruct (Qgtb t 0); reflexivity.
Qed.

Lemma py_pop0_tl {A : Type} (l : list A) : l <> [] -> py_pop0 l = Ok (tl l).
Proof. destruct l; [congruence | reflexivity]. Qed.

Lemma written_app (p : bool) (a b : list LogMsg) :
  written p (a ++ b) = written p a ++ written p b.
Proof. destruct p; reflexivity. Qed.

Lemma written_nil (p : bool) : written p [] = [].
Proof. destruct p; reflexivity. Qed.

(** ** The window *)

Lemma window_push_length (fps : Q) (samples : list Q) :
  (List.length samples <= 10)%nat ->
  (List.length (window_push fps samples) <= 10)%nat.
Proof.
  intros Hlen. unfold window_push.
  destruct (10 <? Z.of_nat (List.length (samples ++ [fps]))) eqn:Hfull.
  - destruct samples as [|s rest]; cbn in *; [lia|].
    rewrite length_app. cbn. lia.
  - apply Z.ltb_ge in Hfull. lia.
Qed.

Lemma window_push_full (fps : Q) (samples : list Q) :
  List.length samples = 10%nat ->
  window_push fps samples = tl samples ++ [fps].
Proof.
  intros Hlen. unfold window_push. rewrite length_app, Hlen. cbn.
  destruct samples; [discriminate | reflexivity].
Qed.

Lemma window_push_room (fps : Q) (samples : list Q) :
  (List.length samples < 10)%nat ->
  window_push fps samples = samples ++ [fps].
Proof.
  intros Hlen. unfold window_push.
  destruct (10 <? Z.of_nat (List.length (samples ++ [fps]))) eqn:Hfull;
    [|reflexivity].
  apply Z.ltb_lt in Hfull. rewrite length_app in Hfull. cbn in Hfull. lia.
Qed.

Lemma window_push_nonempty (fps : Q) (samples : list Q) :
  (List.length samples <= 10)%nat -> window_push fps samples <> [].
Proof.
  intros Hlen.
  destruct (Nat.eq_dec (List.length samples) 10) as [Hfull|Hroom].
  - rewrite window_push_full by assumption.
    intros Hnil. apply app_eq_nil in Hnil. destruct Hnil; discriminate.
  - rewrite window_push_room by lia.
    intros Hnil. apply app_eq_nil in Hnil. destruct Hnil; discriminate.
Qed.

(** Projections of setter chains, and nothing else. *)
Ltac fields :=
  cbn [questnav total_frames_received last_frame_count frame_drops start_time
       frame_rate_samples last_frame_time log_paused labels log _running attrs
       after_calls messageboxes dialog_open
       set_questnav set_total_frames_received set_last_frame_count
       set_frame_drops set_frame_rate_samples set_last_frame_time
       set_log_paused set_labels set_log set_running set_attrs
       set_after_calls set_messageboxes set_dialog_open
       upd config py_setattr hasattr].

Tactic Notation "fields" "in" hyp(H) :=
  cbn [questnav total_frames_received last_frame_count frame_drops start_time
       frame_rate_samples last_frame_time log_paused labels log _running attrs
       after_calls messageboxes dialog_open
       set_questnav set_total_frames_received set_last_frame_count
       set_frame_drops set_frame_rate_samples set_last_frame_time
       set_log_paused set_labels set_log set_running set_attrs
       set_after_calls set_messageboxes set_dialog_open
       upd config py_setattr hasattr] in H.

(** ** The blocks of the frame loop *)

Section Proofs.
Context {Lib : Library}.

Lemma _log_eq (m : LogMsg) (v : Viewer) :
  _log m v = set_log (log v ++ written (log_paused v) [m]) v.
Proof.
  unfold _log, written. destruct v as [? ? ? ? ? ? ? p ? ? ? ? ? ? ?]; cbn.
  destruct p; [rewrite app_nil_r|]; reflexivity.
Qed.

(** The drop check on one frame: it adds [gap] when the frame compares equal
    to the first of the batch, and logs drops above 5. *)
Lemma detect_frame_drops_eq (first : PoseFrame) (more : list PoseFrame)
    (frame : PoseFrame) (v : Viewer) :
  let d := if frame_eq frame first
           then gap (last_frame_count v) (frame_count frame) else 0 in
  detect_frame_drops (first :: more) frame v =
  Ok (set_log (log v ++ written (log_paused v)
                           (if 5 <? d then [WarnDropped d] else []))
        (set_frame_drops (frame_drops v + d) v)).
Proof.
  unfold detect_frame_drops, gap, py_and, py_getitem; cbn.
  destruct v as [qn tot lst drp st smp lt p lbl lg run at_ af mb dl]; cbn.
  destruct (lst >? 0) eqn:Hlast; cbn.
  - destruct (frame_eq frame first); cbn.
    + destruct (frame_count frame >? lst + 1) eqn:Hgap; cbn.
      * rewrite Z.gtb_ltb.
        destruct (5 <? frame_count frame - (lst + 1)); cbn.
        -- rewrite _log_eq. reflexivity.
        -- rewrite written_nil, app_nil_r. reflexivity.
      * rewrite written_nil, app_nil_r, Z.add_0_r. reflexivity.
    + rewrite written_nil, app_nil_r, Z.add_0_r. reflexivity.
  - destruct (frame_eq frame first); cbn;
      rewrite written_nil, app_nil_r, Z.add_0_r; reflexivity.
Qed.

Lemma calculate_frame_rate_eq (current_time : Q) (v : Viewer) :
  calculate_frame_rate current_time v =
  Ok (set_frame_rate_samples
        (match rate_sample current_time (last_frame_time v) with
         | Some fps => window_push fps (frame_rate_samples v)
         | None => frame_rate_samples v
         end) v).
Proof.
  unfold calculate_frame_rate, rate_sample, window_push.
  destruct v as [qn tot lst drp st smp lt p lbl lg run at_ af mb dl]; cbn.
  destruct (Qgtb lt 0); [|reflexivity].
  destruct (Qgtb (current_time - lt) 0) eqn:Hdt; [|reflexivity].
  rewrite py_truediv_positive by assumption. cbn.
  destruct (10 <? Z.of_nat (List.length (smp ++ [(1 / (current_time - lt))%Q])));
    [|reflexivity].
  rewrite py_pop0_tl; [reflexivity|].
  intros Hnil. apply app_eq_nil in Hnil. destruct Hnil; discriminate.
Qed.

Lemma process_frame_eq (current_time : Q) (first : PoseFrame)
    (more : list PoseFrame) (frame : PoseFrame) (v : Viewer) :
  let d := if frame_eq frame first
           then gap (last_frame_count v) (frame_count frame) else 0 in
  process_frame current_time (first :: more) frame v =
  Ok (_update_pose_display (quest_pose_3d frame)
        (set_last_frame_time current_time
           (set_frame_rate_samples
              (match rate_sample current_time (last_frame_time v) with
               | Some fps => window_push fps (frame_rate_samples v)
               | None => frame_rate_samples v
               end)
              (set_last_frame_count (frame_count frame)
                 (set_log (log v ++ written (log_paused v)
                                      (if 5 <? d then [WarnDropped d] else []))
                    (set_frame_drops (frame_drops v + d)
                       (set_total_frames_received
                          (total_frames_received v + 1) v))))))).
Proof.
  unfold process_frame. rewrite detect_frame_drops_eq. cbn [bind].
  rewrite calculate_frame_rate_eq. reflexivity.
Qed.

Lemma loop_frame_refl (v : Viewer) : loop_frame v v.
Proof.
  constructor; try reflexivity.
  exists []. cbn. rewrite written_nil, app_nil_r. reflexivity.
Qed.

Lemma loop_frame_trans (a b c : Viewer) :
  loop_frame a b -> loop_frame b c -> loop_frame a c.
Proof.
  intros [q1 s1 p1 r1 a1 f1 m1 d1 l1 [ds1 g1]] [q2 s2 p2 r2 a2 f2 m2 d2 l2 [ds2 g2]].
  constructor; try congruence.
  - intros l Hl. rewrite l2, l1 by assumption. reflexivity.
  - exists (ds1 ++ ds2).
    rewrite g2, g1, p1, map_app, written_app, app_assoc. reflexivity.
Qed.

Lemma process_frame_frame (current_time : Q) (first : PoseFrame)
    (more : list PoseFrame) (frame : PoseFrame) (v v' : Viewer) :
  process_frame current_time (first :: more) frame v = Ok v' ->
  loop_frame v v'.
Proof.
  rewrite process_frame_eq. intros Heq. injection Heq as <-.
  constructor; try reflexivity.
  - intros l Hl. destruct l; try discriminate; reflexivity.
  - cbn.
    set (d := if frame_eq frame first
              then gap (last_frame_count v) (frame_count frame) else 0).
    destruct (5 <? d).
    + exists [d]. reflexivity.
    + exists []. reflexivity.
Qed.

Lemma last_default {A : Type} (l : list A) (b d d' : A) :
  last (b :: l) d = last (b :: l) d'.
Proof.
  revert b. induction l as [|c l IH]; intros b; [reflexivity|].
  change (last (c :: l) d = last (c :: l) d'). apply IH.
Qed.

Lemma last_cons {A : Type} (a d : A) (l : list A) :
  last (a :: l) d = last l a.
Proof.
  destruct l as [|b l]; [reflexivity|].
  change (last (b :: l) d = last (b :: l) a). apply last_default.
Qed.

(** The loop over any part [todo] of a non-empty batch: it returns, counts
    every frame, records the last sequence, and adds at most one sample,
    the one of its first frame. *)
Lemma for_frames_any (current_time : Q) (first : PoseFrame)
    (more todo : list PoseFrame) (v : Viewer) :
  exists v',
    for_frames current_time (first :: more) todo v = Ok v' /\
    loop_frame v v' /\
    total_frames_received v' =
      total_frames_received v + Z.of_nat (List.length todo) /\
    match todo with
    | [] => v' = v
    | g :: rest =>
        last_frame_count v' = frame_count (last rest g) /\
        last_frame_time v' = current_time /\
        frame_rate_samples v' =
          match rate_sample current_time (last_frame_time v) with
          | Some fps => window_push fps (frame_rate_samples v)
          | None => frame_rate_samples v
          end
    end.
Proof.
  revert v. induction todo as [|g rest IH]; intros v.
  - exists v. cbn. repeat split; try lia. apply loop_frame_refl.
  - cbn [for_frames].
    destruct (process_frame current_time (first :: more) g v) as [v1|e] eqn:Hg.
    2:{ rewrite process_frame_eq in Hg. discriminate. }
    pose proof (process_frame_frame _ _ _ _ _ _ Hg) as Hframe.
    rewrite process_frame_eq in Hg. injection Hg as Hv1.
    cbn [bind]. destruct (IH v1) as (v' & Hrun & Hfr & Htot & Hrest).
    exists v'. split; [exact Hrun|]. split.
    { eapply loop_frame_trans; eassumption. }
    split.
    { rewrite Htot, <- Hv1. cbn. lia. }
    destruct rest as [|g' rest'].
    + subst v'. rewrite <- Hv1. cbn. auto.
    + destruct Hrest as (Hlast & Htime & Hsamples).
      split; [rewrite last_cons; exact Hlast|]. split; [exact Htime|].
      rewrite Hsamples, <- Hv1. cbn.
      rewrite rate_sample_same_time. reflexivity.
Qed.

(** Over frames that do not compare equal to the first of the batch the drop
    check never runs: the drop counter and the log stay as they are. *)
Lemma for_frames_later (current_time : Q) (first : PoseFrame)
    (more todo : list PoseFrame) (v v' : Viewer) :
  (forall g, In g todo -> frame_eq g first = false) ->
  for_frames current_time (first :: more) todo v = Ok v' ->
  frame_drops v' = frame_drops v /\ log v' = log v.
Proof.
  revert v. induction todo as [|g rest IH]; intros v Hne Hrun.
  - cbn in Hrun. injection Hrun as <-. auto.
  - cbn [for_frames] in Hrun. rewrite process_frame_eq in Hrun.
    cbn [bind] in Hrun. apply IH in Hrun.
    2:{ intros g' Hin. apply Hne. right. exact Hin. }
    destruct Hrun as [Hd Hl]. rewrite Hd, Hl.
    rewrite (Hne g) by (left; reflexivity). cbn.
    rewrite written_nil, app_nil_r. split; [lia | reflexivity].
Qed.

(** ** The display part of a tick *)

Lemma upd_upd (L1 L2 : Label -> LabelText) (M1 M2 : list LogMsg)
    (A1 A2 : DynAttr -> option bool) (v : Viewer) :
  upd L2 M2 A2 (upd L1 M1 A1 v) = upd L2 (M1 ++ M2) A2 v.
Proof.
  unfold upd; cbn. rewrite written_app, app_assoc. reflexivity.
Qed.

Lemma upd_questnav (L : Label -> LabelText) (M : list LogMsg)
    (A : DynAttr -> option bool) (v : Viewer) :
  questnav (upd L M A v) = questnav v.
Proof. reflexivity. Qed.

Lemma upd_total_frames_received (L : Label -> LabelText) (M : list LogMsg)
    (A : DynAttr -> option bool) (v : Viewer) :
  total_frames_received (upd L M A v) = total_frames_received v.
Proof. reflexivity. Qed.

Lemma upd_last_frame_count (L : Label -> LabelText) (M : list LogMsg)
    (A : DynAttr -> option bool) (v : Viewer) :
  last_frame_count (upd L M A v) = last_frame_count v.
Proof. reflexivity. Qed.

Lemma upd_frame_drops (L : Label -> LabelText) (M : list LogMsg)
    (A : DynAttr -> option bool) (v : Viewer) :
  frame_drops (upd L M A v) = frame_drops v.
Proof. reflexivity. Qed.

Lemma upd_start_time (L : Label -> LabelText) (M : list LogMsg)
    (A : DynAttr -> option bool) (v : Viewer) :
  start_time (upd L M A v) = start_time v.
Proof. reflexivity. Qed.

Lemma upd_frame_rate_samples (L : Label -> LabelText) (M : list LogMsg)
    (A : DynAttr -> option bool) (v : Viewer) :
  frame_rate_samples (upd L M A v) = frame_rate_samples v.
Proof. reflexivity. Qed.

Lemma upd_last_frame_time (L : Label -> LabelText) (M : list LogMsg)
    (A : DynAttr -> option bool) (v : Viewer) :
  last_frame_time (upd L M A v) = last_frame_time v.
Proof. reflexivity. Qed.

Lemma upd_log_paused (L : Label -> LabelText) (M : list LogMsg)
    (A : DynAttr -> option bool) (v : Viewer) :
  log_paused (upd L M A v) = log_paused v.
Proof. reflexivity. Qed.

Lemma upd_running (L : Label -> LabelText) (M : list LogMsg)
    (A : DynAttr -> option bool) (v : Viewer) :
  _running (upd L M A v) = _running v.
Proof. reflexivity. Qed.

Lemma upd_after_calls (L : Label -> LabelText) (M : list LogMsg)
    (A : DynAttr -> option bool) (v : Viewer) :
  after_calls (upd L M A v) = after_calls v.
Proof. reflexivity. Qed.

Lemma upd_messageboxes (L : Label -> LabelText) (M : list LogMsg)
    (A : DynAttr -> option bool) (v : Viewer) :
  messageboxes (upd L M A v) = messageboxes v.
Proof. reflexivity. Qed.

Lemma upd_dialog_open (L : Label -> LabelText) (M : list LogMsg)
    (A : DynAttr -> option bool) (v : Viewer) :
  dialog_open (upd L M A v) = dialog_open v.
Proof. reflexivity. Qed.

Lemma upd_labels (L : Label -> LabelText) (M : list LogMsg)
    (A : DynAttr -> option bool) (v : Viewer) :
  labels (upd L M A v) = L.
Proof. reflexivity. Qed.

Lemma upd_attrs (L : Label -> LabelText) (M : list LogMsg)
    (A : DynAttr -> option bool) (v : Viewer) :
  attrs (upd L M A v) = A.
Proof. reflexivity. Qed.

Lemma upd_hasattr (L : Label -> LabelText) (M : list LogMsg)
    (A : DynAttr -> option bool) (v : Viewer) (a : DynAttr) :
  hasattr (upd L M A v) a = match A a with Some _ => true | None => false end.
Proof. reflexivity. Qed.

Lemma upd_log (L : Label -> LabelText) (M : list LogMsg)
    (A : DynAttr -> option bool) (v : Viewer) :
  log (upd L M A v) = log v ++ written (log_paused v) M.
Proof. reflexivity. Qed.

Ltac upd_fields :=
  repeat progress
    rewrite ?upd_questnav, ?upd_total_frames_received, ?upd_last_frame_count,
      ?upd_frame_drops, ?upd_start_time, ?upd_frame_rate_samples,
      ?upd_last_frame_time, ?upd_log_paused, ?upd_running, ?upd_after_calls,
      ?upd_messageboxes, ?upd_dialog_open, ?upd_labels, ?upd_attrs,
      ?upd_hasattr, ?upd_upd, ?app_nil_l, ?app_nil_r.

Lemma upd_id (v : Viewer) : v = upd (labels v) [] (attrs v) v.
Proof.
  destruct v; unfold upd; cbn. rewrite written_nil, app_nil_r. reflexivity.
Qed.

Lemma config_upd (l : Label) (t : LabelText) (v : Viewer) :
  config l t v =
  upd (fun l' => if Label_eqb l l' then t else labels v l') [] (attrs v) v.
Proof.
  unfold config, upd; cbn. rewrite written_nil, app_nil_r. reflexivity.
Qed.

Lemma _log_upd (m : LogMsg) (v : Viewer) :
  _log m v = upd (labels v) [m] (attrs v) v.
Proof. rewrite _log_eq. reflexivity. Qed.

Lemma py_setattr_upd (a : DynAttr) (b : bool) (v : Viewer) :
  py_setattr a b v =
  upd (labels v) [] (fun a' => if DynAttr_eqb a a' then Some b else attrs v a') v.
Proof.
  unfold py_setattr, upd; cbn. rewrite written_nil, app_nil_r. reflexivity.
Qed.

Lemma show_connected_upd (connected : bool) (v : Viewer) :
  show_connected connected v =
  upd (fun l => if Label_eqb conn_label l
                then (if connected then Txt "[X] Connected"
                      else Txt "[ ] Disconnected")
                else labels v l) [] (attrs v) v.
Proof. unfold show_connected. destruct connected; apply config_upd. Qed.

Lemma show_tracking_upd (tracking : bool) (v : Viewer) :
  show_tracking tracking v =
  upd (fun l => if Label_eqb track_label l
                then (if tracking then Txt "[X] Tracking"
                      else Txt "[ ] Not Tracking")
                else labels v l) [] (attrs v) v.
Proof. unfold show_tracking. destruct tracking; apply config_upd. Qed.

Lemma show_battery_upd (battery : option Z) (v : Viewer) :
  show_battery battery v =
  upd (fun l => match battery with
                | Some b => if Label_eqb batt_label l
                            then TxtInt "Battery: " b "%" else labels v l
                | None => labels v l
                end)
      (low_battery_msgs (hasattr v _low_battery_warned) battery)
      (fun a => match low_battery_msgs (hasattr v _low_battery_warned) battery with
                | [] => attrs v a
                | _ :: _ => if DynAttr_eqb _low_battery_warned a
                            then Some true else attrs v a
                end) v.
Proof.
  unfold show_battery, low_battery_msgs.
  destruct battery as [b|]; [|apply upd_id].
  change (hasattr (config batt_label (TxtInt "Battery: " b "%") v)
            _low_battery_warned) with (hasattr v _low_battery_warned).
  destruct ((b <? 20) && negb (hasattr v _low_battery_warned)).
  - cbn zeta. rewrite py_setattr_upd, _log_upd, config_upd, !upd_upd.
    reflexivity.
  - apply config_upd.
Qed.

Lemma show_latency_upd (latency : Q) (v : Viewer) :
  show_latency latency v =
  upd (fun l => if Label_eqb latency_label l
                then TxtFloat "Latency: " latency 1 " ms" else labels v l)
      [] (attrs v) v.
Proof. apply config_upd. Qed.

Lemma show_frame_count_upd (n : option Z) (v : Viewer) :
  show_frame_count n v =
  upd (fun l => match n with
                | Some n => if Label_eqb frame_count_label l
                            then TxtInt "Frame Count: " n "" else labels v l
                | None => labels v l
                end) [] (attrs v) v.
Proof. destruct n; [apply config_upd | apply upd_id]. Qed.

Lemma show_tracking_lost_upd (n : option Z) (v : Viewer) :
  show_tracking_lost n v =
  upd (fun l => match n with
                | Some n => if Label_eqb tracking_lost_label l
                            then TxtInt "Tracking Lost Events: " n ""
                            else labels v l
                | None => labels v l
                end) [] (attrs v) v.
Proof. destruct n; [apply config_upd | apply upd_id]. Qed.

Lemma show_stats_upd (v : Viewer) :
  show_stats v =
  upd (fun l => if Label_eqb frame_drops_label l
                then TxtInt "Frame Drops: " (frame_drops v) ""
                else if Label_eqb total_frames_label l
                then TxtInt "Total Received: " (total_frames_received v) ""
                else labels v l) [] (attrs v) v.
Proof.
  unfold show_stats. cbn zeta. rewrite !config_upd, upd_upd. reflexivity.
Qed.

Lemma py_len_nonzero (x : Q) (l : list Q) :
  Qeq_bool (py_len (x :: l)) 0 = false.
Proof.
  unfold py_len. destruct (Qeq_bool _ 0) eqn:Hz; [|reflexivity].
  apply Qeq_bool_eq in Hz. unfold Qeq in Hz. cbn in Hz. lia.
Qed.

Lemma show_average_rate_upd (v : Viewer) :
  show_average_rate v =
  Ok (upd (fun l => match frame_rate_samples v with
                    | [] => labels v l
                    | _ :: _ =>
                        if Label_eqb frame_rate_label l
                        then TxtFloat "Frame Rate: "
                               (py_sum (frame_rate_samples v)
                                / py_len (frame_rate_samples v))%Q 1 " Hz"
                        else labels v l
                    end) [] (attrs v) v).
Proof.
  unfold show_average_rate.
  destruct (frame_rate_samples v) as [|x l] eqn:Hs.
  - f_equal. apply upd_id.
  - unfold py_truediv. rewrite py_len_nonzero. cbn [bind].
    f_equal. apply config_upd.
Qed.

Lemma show_uptime_upd (current_time : Q) (v : Viewer) :
  show_uptime current_time v =
  upd (fun l => if Label_eqb uptime_label l
                then TxtUptime (py_int (current_time - start_time v)%Q / 60)
                               (py_int (current_time - start_time v)%Q mod 60)
                else labels v l) [] (attrs v) v.
Proof. apply config_upd. Qed.

Lemma log_connection_change_upd (connected : bool) (v : Viewer) :
  log_connection_change connected v =
  Ok (upd (labels v)
          (edge_event (attrs v _was_connected) connected
             OkQuestConnected WarnQuestDisconnected)
          (fun a => if DynAttr_eqb _was_connected a
                    then Some connected else attrs v a) v).
Proof.
  unfold log_connection_change, hasattr, py_getattr, py_and, edge_event.
  destruct (attrs v _was_connected) as [[|]|];
    destruct connected; cbn;
    rewrite ?_log_upd, py_setattr_upd, ?upd_upd; try reflexivity;
    rewrite (upd_id v) at 1; rewrite upd_upd; reflexivity.
Qed.

Lemma log_tracking_change_upd (tracking : bool) (v : Viewer) :
  log_tracking_change tracking v =
  Ok (upd (labels v)
          (edge_event (attrs v _was_tracking) tracking
             OkTrackingStarted WarnTrackingLost)
          (fun a => if DynAttr_eqb _was_tracking a
                    then Some tracking else attrs v a) v).
Proof.
  unfold log_tracking_change, hasattr, py_getattr, py_and, edge_event.
  destruct (attrs v _was_tracking) as [[|]|];
    destruct tracking; cbn;
    rewrite ?_log_upd, py_setattr_upd, ?upd_upd; try reflexivity;
    rewrite (upd_id v) at 1; rewrite upd_upd; reflexivity.
Qed.

(** ** One tick *)

Lemma drain_events_eq (events : list ConnEvent) (v : Viewer) :
  fold_left log_conn_event events v =
  set_log (log v ++ written (log_paused v) (conn_msgs events)) v.
Proof.
  revert v. induction events as [|e events IH]; intros v.
  - destruct v; cbn. rewrite written_nil, app_nil_r. reflexivity.
  - cbn [fold_left conn_msgs flat_map]. rewrite IH.
    unfold log_conn_event, _log.
    destruct v as [qn tot lst drp st smp lt p lbl lg run at_ af mb dl].
    destruct (is_kConnected e); [|destruct (is_kDisconnected e)];
      destruct p; cbn; rewrite <- ?app_assoc; reflexivity.
Qed.

Lemma for_frames_batch (current_time : Q) (batch : list PoseFrame) (v : Viewer) :
  exists v1,
    for_frames current_time batch batch v = Ok v1 /\
    loop_frame v v1 /\
    total_frames_received v1 =
      total_frames_received v + Z.of_nat (List.length batch) /\
    match batch with
    | [] => v1 = v
    | g :: rest =>
        last_frame_count v1 = frame_count (last rest g) /\
        last_frame_time v1 = current_time /\
        frame_rate_samples v1 =
          match rate_sample current_time (last_frame_time v) with
          | Some fps => window_push fps (frame_rate_samples v)
          | None => frame_rate_samples v
          end
    end.
Proof.
  destruct batch as [|first more].
  - exists v. cbn. repeat split; try lia. apply loop_frame_refl.
  - apply for_frames_any.
Qed.

Lemma tick_running (r : Readings) (v : Viewer) :
  _running v = true ->
  exists v1 v', _update_loop r v = Ok v' /\ tick_effect r v v1 v'.
Proof.
  intros Hrun.
  destruct (for_frames_batch (time_time r) (get_all_unread_pose_frames r)
              (before_frames r v)) as (v1 & Hloop & Hframe & Htot & Hbatch).
  unfold _update_loop. rewrite Hrun. cbn [negb]. cbn zeta.
  unfold before_frames in Hloop. cbn zeta in Hloop. rewrite Hloop. cbn [bind].
  rewrite show_connected_upd, show_tracking_upd. upd_fields.
  rewrite show_battery_upd. upd_fields.
  rewrite show_latency_upd. upd_fields.
  rewrite show_frame_count_upd. upd_fields.
  rewrite show_tracking_lost_upd. upd_fields.
  rewrite show_stats_upd. upd_fields.
  rewrite show_average_rate_upd. cbn [bind]. upd_fields.
  rewrite show_uptime_upd. upd_fields.
  rewrite log_connection_change_upd. cbn [bind]. upd_fields.
  rewrite log_tracking_change_upd. cbn [bind]. upd_fields.
  eexists v1, _. split; [reflexivity|].
  destruct Hframe as [Hq Hs Hp Hr Ha Hf Hm Hd Hl [ds Hlog]].
  assert (Hv0 : before_frames r v =
                set_questnav (questnav v ++ [CommandPeriodic])
                  (set_log (log v ++ written (log_paused v)
                                       (conn_msgs (readQueue r))) v)).
  { unfold before_frames. rewrite drain_events_eq. reflexivity. }
  rewrite Hv0 in *. fields in Hq. fields in Hs. fields in Hp. fields in Hr.
  fields in Ha. fields in Hf. fields in Hm. fields in Hd. fields in Hlog.
  fields in Htot. fields in Hbatch. fields in Hl.
  constructor; fields.
  - unfold before_frames. cbn zeta. exact Hloop.
  - exact Htot.
  - destruct (get_all_unread_pose_frames r) as [|g rest].
    + subst v1. reflexivity.
    + apply Hbatch.
  - destruct (get_all_unread_pose_frames r) as [|g rest].
    + subst v1. reflexivity.
    + apply Hbatch.
  - destruct (get_all_unread_pose_frames r) as [|g rest].
    + subst v1. reflexivity.
    + destruct Hbatch as (_ & _ & Hsamples). exact Hsamples.
  - reflexivity.
  - exact Hp.
  - exact Hr.
  - exact Hs.
  - exact Hm.
  - exact Hd.
  - exact Hq.
  - rewrite Hf. reflexivity.
  - intros a. rewrite Ha. unfold tick_attrs, hasattr.
    destruct a; cbn [DynAttr_eqb]; try reflexivity;
      destruct (low_battery_msgs _ (get_battery_percent r)); reflexivity.
  - exists ds. split.
    + rewrite Hlog, written_app, app_assoc. reflexivity.
    + rewrite Hlog, Hp, Ha. unfold tick_msgs, hasattr. cbn [DynAttr_eqb].
      destruct (low_battery_msgs _ (get_battery_percent r));
        rewrite !written_app, <- !app_assoc; reflexivity.
  - intros l. unfold tick_labels. fields.
    destruct l; cbn [Label_eqb];
      destruct (frame_rate_samples v1);
      destruct (get_tracking_lost_counter r);
      destruct (get_frame_count r);
      destruct (get_battery_percent r); reflexivity.
  - exact Hl.
Qed.

(** A stopped viewer ignores the tick. *)
Lemma tick_stopped (r : Readings) (v : Viewer) :
  _running v = false -> _update_loop r v = Ok v.
Proof. intros Hrun. unfold _update_loop. rewrite Hrun. reflexivity. Qed.

(** A tick returns, whatever it reads. *)
Lemma tick_returns (r : Readings) (v : Viewer) :
  exists v', _update_loop r v = Ok v'.
Proof.
  destruct (_running v) eqn:Hrun.
  - destruct (tick_running r v Hrun) as (v1 & v' & Hok & _). eauto.
  - exists v. apply tick_stopped. exact Hrun.
Qed.

(** ** Frame drops *)

Section DropCheck.
Context {Laws : LibraryLaws Lib}.

(** A batch in which no later frame compares equal to the first: the drop
    check runs once, on the first frame. *)
Lemma batch_drops (current_time : Q) (f : PoseFrame) (rest : list PoseFrame)
    (v v1 : Viewer) :
  (forall g, In g rest -> frame_eq g f = false) ->
  for_frames current_time (f :: rest) (f :: rest) v = Ok v1 ->
  frame_drops v1 =
  frame_drops v + gap (last_frame_count v) (frame_count f).
Proof.
  intros Hlater Hrun. cbn [for_frames] in Hrun.
  rewrite process_frame_eq in Hrun. cbn [bind] in Hrun.
  apply for_frames_later in Hrun; [|exact Hlater].
  destruct Hrun as [Hd _]. rewrite Hd. fields.
  unfold _update_pose_display. fields.
  rewrite frame_eq_refl. reflexivity.
Qed.

(** The same, for the whole tick. *)
Lemma tick_batch_drops (r : Readings) (v v1 v' : Viewer) (f : PoseFrame)
    (rest : list PoseFrame) :
  tick_effect r v v1 v' ->
  get_all_unread_pose_frames r = f :: rest ->
  (forall g, In g rest -> frame_eq g f = false) ->
  frame_drops v' = frame_drops v + gap (last_frame_count v) (frame_count f).
Proof.
  intros Heff Hbatch Hlater.
  pose proof (te_loop _ _ _ _ Heff) as Hloop.
  rewrite Hbatch in Hloop.
  apply batch_drops in Hloop; [|exact Hlater].
  rewrite (te_drops _ _ _ _ Heff), Hloop. unfold before_frames.
  rewrite drain_events_eq. reflexivity.
Qed.

(** A tick that drains nothing leaves the drop counter alone. *)
Lemma tick_empty_drops (r : Readings) (v v1 v' : Viewer) :
  tick_effect r v v1 v' ->
  get_all_unread_pose_frames r = [] ->
  frame_drops v' = frame_drops v.
Proof.
  intros Heff Hbatch.
  pose proof (te_loop _ _ _ _ Heff) as Hloop.
  rewrite Hbatch in Hloop. cbn in Hloop. injection Hloop as Hv1.
  rewrite (te_drops _ _ _ _ Heff), <- Hv1. unfold before_frames.
  rewrite drain_events_eq. reflexivity.
Qed.

Lemma gap_unarmed (last count : Z) : last <= 0 -> gap last count = 0.
Proof.
  intros Hle. unfold gap.
  destruct (last >? 0) eqn:Hpos; [|reflexivity].
  apply Z.gtb_lt in Hpos. lia.
Qed.

Lemma gap_behind (last count : Z) : count <= last + 1 -> gap last count = 0.
Proof.
  intros Hle. unfold gap.
  replace (count >? last + 1) with false.
  - rewrite andb_false_r. reflexivity.
  - symmetry. rewrite Z.gtb_ltb. apply Z.ltb_ge. lia.
Qed.

Lemma gap_ahead (last count : Z) :
  0 < last -> last + 1 < count -> gap last count = count - (last + 1).
Proof.
  intros Hpos Hgap. unfold gap.
  replace (last >? 0) with true by (symmetry; apply Z.gtb_lt; lia).
  replace (count >? last + 1) with true by (symmetry; apply Z.gtb_lt; lia).
  reflexivity.
Qed.

(** C1, as the code has it.  In a tick of a running viewer that drains a
    non-empty batch in which no later frame compares equal to the first, the
    drop check runs once, against the first frame: when the last recorded
    sequence is not positive (nothing recorded yet, or a frame with sequence 0
    was the last one) [frame_drops] is unchanged; otherwise, with
    expected = last sequence + 1, a first sequence above expected adds
    sequence - expected to [frame_drops] and a first sequence of at most
    expected adds nothing.  Every frame of the batch is counted as received,
    and the last sequence becomes that of the final frame. *)
Theorem frame_drops_per_batch (r : Readings) (v : Viewer) (f : PoseFrame)
    (rest : list PoseFrame) :
  _running v = true ->
  get_all_unread_pose_frames r = f :: rest ->
  (forall g, In g rest -> frame_eq g f = false) ->
  exists v',
    _update_loop r v = Ok v' /\
    (last_frame_count v <= 0 -> frame_drops v' = frame_drops v) /\
    (0 < last_frame_count v ->
     last_frame_count v + 1 < frame_count f ->
     frame_drops v' =
     frame_drops v + (frame_count f - (last_frame_count v + 1))) /\
    (0 < last_frame_count v ->
     frame_count f <= last_frame_count v + 1 ->
     frame_drops v' = frame_drops v) /\
    total_frames_received v' =
      total_frames_received v + Z.of_nat (List.length (f :: rest)) /\
    last_frame_count v' = frame_count (last rest f).
Proof.
  intros Hrun Hbatch Hlater.
  destruct (tick_running r v Hrun) as (v1 & v' & Hok & Heff).
  exists v'. split; [exact Hok|].
  pose proof (te_total _ _ _ _ Heff) as Htot.
  pose proof (te_last _ _ _ _ Heff) as Hlast.
  rewrite Hbatch in Htot, Hlast.
  pose proof (tick_batch_drops r v v1 v' f rest Heff Hbatch Hlater) as Hd.
  repeat split; try assumption.
  - intros Hle. rewrite Hd, gap_unarmed by assumption. lia.
  - intros Hpos Hgap. rewrite Hd, gap_ahead by assumption. reflexivity.
  - intros Hpos Hgap. rewrite Hd, gap_behind by assumption. lia.
Qed.

(** The sentinel alone: with a last recorded sequence of 0 and a batch in
    which no later frame compares equal to the first, a tick leaves
    [frame_drops] as it is, whatever the first sequence. *)
Lemma drop_check_unarmed (r : Readings) (v v' : Viewer) :
  last_frame_count v = 0 ->
  (forall f rest g, get_all_unread_pose_frames r = f :: rest ->
                    In g rest -> frame_eq g f = false) ->
  _update_loop r v = Ok v' ->
  frame_drops v' = frame_drops v.
Proof.
  intros Hzero Hlater Hok.
  destruct (_running v) eqn:Hrun.
  2:{ rewrite tick_stopped in Hok by assumption. injection Hok as <-.
      reflexivity. }
  destruct (tick_running r v Hrun) as (v1 & v2 & Hok2 & Heff).
  rewrite Hok in Hok2. injection Hok2 as <-.
  destruct (get_all_unread_pose_frames r) as [|f rest] eqn:Hbatch.
  - eapply tick_empty_drops; eassumption.
  - rewrite (tick_batch_drops r v v1 v' f rest Heff Hbatch
               (fun g Hin => Hlater f rest g eq_refl Hin)).
    rewrite gap_unarmed by lia. lia.
Qed.

End DropCheck.

(** ** Runs *)

Lemma user_frame_refl (v : Viewer) : user_frame v v.
Proof. constructor; auto. Qed.

Lemma _log_user_frame (m : LogMsg) (v : Viewer) : user_frame v (_log m v).
Proof. rewrite _log_eq. constructor; auto. Qed.

Lemma user_frame_trans (a b c : Viewer) :
  user_frame a b -> user_frame b c -> user_frame a c.
Proof.
  intros [t1 l1 d1 s1 m1 st1 a1 lb1 r1] [t2 l2 d2 s2 m2 st2 a2 lb2 r2].
  constructor; try congruence; auto.
  intros l Hl. rewrite lb2, lb1 by assumption. reflexivity.
Qed.

(** Every user action leaves the counters, the window, the dynamic
    attributes and the diagnostic labels alone, and never restarts a
    stopped viewer. *)
Lemma step_user_frame (a : Action) (v v' : Viewer) :
  (forall r, a <> Tick r) -> step a v = Ok v' -> user_frame v v'.
Proof.
  intros Huser Hstep.
  destruct a as [r| | |xe ye ze we| | |fn wr|]; cbn [step] in Hstep.
  - destruct (Huser r eq_refl).
  - injection Hstep as <-. unfold _reset_pose_origin.
    rewrite !_log_eq. constructor; auto.
  - injection Hstep as <-. constructor; auto.
  - unfold send_custom_pose, send_custom_pose_try, float_of_entry in Hstep.
    destruct (py_float xe); cbn [bind] in Hstep;
      [|injection Hstep as <-; constructor; auto].
    destruct (py_float ye); cbn [bind] in Hstep;
      [|injection Hstep as <-; constructor; auto].
    destruct (py_float ze); cbn [bind] in Hstep;
      [|injection Hstep as <-; constructor; auto].
    destruct (py_float we); cbn [bind] in Hstep;
      [|injection Hstep as <-; constructor; auto].
    injection Hstep as <-. rewrite !_log_eq. constructor; auto.
  - injection Hstep as <-. unfold _clear_log. fields.
    destruct (negb (log_paused v)); [rewrite _log_eq|]; constructor; auto.
  - injection Hstep as <-. unfold _toggle_log_pause. fields.
    destruct (negb (log_paused v)); [|rewrite _log_eq]; constructor; auto;
      intros l Hl; fields; destruct l; try reflexivity; congruence.
  - injection Hstep as <-. unfold _export_log.
    destruct (String.eqb fn EmptyString); [constructor; auto|].
    destruct wr; [|constructor; auto]. fields.
    destruct (negb (log_paused v)); [rewrite _log_eq|]; constructor; auto.
  - injection Hstep as <-. constructor; auto. cbn. discriminate.
Qed.

(** A property kept by every step is kept by every run. *)
Lemma run_invariant (I : Viewer -> Prop) :
  (forall a v v', I v -> step a v = Ok v' -> I v') ->
  forall acts v v', I v -> run acts v = Ok v' -> I v'.
Proof.
  intros Hstep acts. induction acts as [|a acts IH]; intros v v' Hv Hrun.
  - cbn in Hrun. injection Hrun as <-. exact Hv.
  - cbn [run] in Hrun. destruct (step a v) as [v1|e] eqn:Ha; [|discriminate].
    cbn [bind] in Hrun. eapply IH; [|exact Hrun]. eapply Hstep; eassumption.
Qed.

(** The cases of a step: a tick of a running viewer, a tick of a stopped
    viewer, a user action. *)
Lemma step_cases (a : Action) (v v' : Viewer) :
  step a v = Ok v' ->
  (exists r v1, a = Tick r /\ _running v = true /\ tick_effect r v v1 v') \/
  (exists r, a = Tick r /\ _running v = false /\ v' = v) \/
  ((forall r, a <> Tick r) /\ user_frame v v').
Proof.
  intros Hstep. destruct a as [r| | |xe ye ze we| | |fn wr|].
  1:{ cbn [step] in Hstep. destruct (_running v) eqn:Hrun.
      - left. destruct (tick_running r v Hrun) as (v1 & v2 & Hok & Heff).
        rewrite Hstep in Hok. injection Hok as <-. eauto.
      - right. left. rewrite tick_stopped in Hstep by assumption.
        injection Hstep as <-. eauto. }
  all: right; right; split; [intros r; discriminate|];
    eapply step_user_frame; [|exact Hstep]; intros r; discriminate.
Qed.

(** A step returns unless a custom pose raises something else than
    [ValueError], which [float] never does. *)
Lemma step_returns (a : Action) (v : Viewer) : exists v', step a v = Ok v'.
Proof.
  destruct a as [r| | |xe ye ze we| | |fn wr|]; cbn [step]; eauto.
  - apply tick_returns.
  - unfold send_custom_pose, send_custom_pose_try, float_of_entry.
    destruct (py_float xe); cbn [bind]; eauto.
    destruct (py_float ye); cbn [bind]; eauto.
    destruct (py_float ze); cbn [bind]; eauto.
    destruct (py_float we); cbn [bind]; eauto.
Qed.

(** ** Streams of sequences *)

Lemma increasing_tail (a : Z) (l : list Z) : increasing (a :: l) -> increasing l.
Proof. destruct l as [|b l]; cbn; tauto. Qed.

Lemma increasing_app_r (l1 l2 : list Z) :
  increasing (l1 ++ l2) -> increasing l2.
Proof.
  induction l1 as [|a l1 IH]; intros Hinc; [exact Hinc|].
  apply IH. eapply increasing_tail. exact Hinc.
Qed.

Lemma increasing_head (l : list Z) :
  forall a x, increasing (a :: l) -> In x l -> a < x.
Proof.
  induction l as [|b l IH]; intros a x Hinc Hin; [destruct Hin|].
  destruct Hinc as [Hab Hrest]. destruct Hin as [<-|Hin]; [exact Hab|].
  specialize (IH b x Hrest Hin). lia.
Qed.

Lemma increasing_last (cs S : list Z) :
  forall c, increasing ((c :: cs) ++ S) -> increasing (last cs c :: S).
Proof.
  induction cs as [|d cs IH]; intros c Hinc; [exact Hinc|].
  rewrite last_cons. apply IH. eapply increasing_tail. exact Hinc.
Qed.

Lemma last_map {A B : Type} (f : A -> B) (l : list A) (d : A) :
  last (map f l) (f d) = f (last l d).
Proof.
  revert d. induction l as [|a l IH]; intros d; [reflexivity|].
  cbn [map]. rewrite !last_cons. apply IH.
Qed.

(** The stream hypotheses, one batch later. *)
Lemma stream_advance (seen : option Z) (b : list Z) (more : list (list Z)) :
  increasing (seen_list seen ++ List.concat (b :: more)) ->
  contiguous seen (b :: more) ->
  let seen' := match b with [] => seen | c :: cs => Some (last cs c) end in
  increasing (seen_list seen' ++ List.concat more) /\ contiguous seen' more.
Proof.
  intros Hinc Hcont. destruct b as [|c cs]; cbn zeta.
  - split; [exact Hinc | exact Hcont].
  - cbn [contiguous] in Hcont. destruct Hcont as [_ Hcont].
    split; [|exact Hcont].
    cbn [List.concat] in Hinc. apply increasing_app_r in Hinc.
    apply increasing_last. exact Hinc.
Qed.

Section StreamProofs.
Context {Laws : LibraryLaws Lib}.

Lemma drops_stay_zero (acts : list Action) :
  forall (seen : option Z) (v v' : Viewer),
    frame_drops v = 0 ->
    (_running v = true ->
     last_frame_count v = match seen with Some l => l | None => 0 end) ->
    increasing (seen_list seen ++ List.concat (batches_of acts)) ->
    contiguous seen (batches_of acts) ->
    run acts v = Ok v' ->
    frame_drops v' = 0.
Proof.
  induction acts as [|a acts IH]; intros seen v v' Hzero Hlast Hinc Hcont Hrun.
  - cbn in Hrun. injection Hrun as <-. exact Hzero.
  - cbn [run] in Hrun. destruct (step a v) as [v1|e] eqn:Ha; [|discriminate].
    cbn [bind] in Hrun.
    destruct (step_cases a v v1 Ha)
      as [(r & v0 & -> & Hrunning & Heff)|[(r & -> & Hstopped & ->)|[Huser Hframe]]].
    + cbn [batches_of] in Hinc, Hcont.
      pose proof (stream_advance _ _ _ Hinc Hcont) as [Hinc' Hcont'].
      destruct (get_all_unread_pose_frames r) as [|f rest] eqn:Hbatch.
      * eapply (IH seen v1); try eassumption.
        -- rewrite (tick_empty_drops r v v0 v1 Heff Hbatch). exact Hzero.
        -- intros _. rewrite (te_last _ _ _ _ Heff), Hbatch. auto.
      * cbn [map] in *.
        eapply (IH (Some (last (map frame_count rest) (frame_count f))) v1);
          try eassumption.
        -- rewrite (tick_batch_drops r v v0 v1 f rest Heff Hbatch), Hzero.
           ++ rewrite (Hlast Hrunning). destruct seen as [l|].
              ** cbn [contiguous] in Hcont. destruct Hcont as [-> _].
                 rewrite gap_behind by lia. reflexivity.
              ** rewrite gap_unarmed by lia. reflexivity.
           ++ intros g Hin. destruct (frame_eq g f) eqn:Heq; [|reflexivity].
              apply frame_eq_count in Heq.
              cbn [List.concat] in Hinc. apply increasing_app_r in Hinc.
              assert (Hlt : frame_count f < frame_count g).
              { eapply increasing_head; [exact Hinc|].
                apply in_or_app. left. apply in_map. exact Hin. }
              lia.
        -- intros _. rewrite (te_last _ _ _ _ Heff), Hbatch.
           symmetry. apply last_map.
    + cbn [batches_of] in Hinc, Hcont.
      pose proof (stream_advance _ _ _ Hinc Hcont) as [Hinc' Hcont'].
      eapply (IH (match map frame_count (get_all_unread_pose_frames r) with
                  | [] => seen
                  | c :: cs => Some (last cs c)
                  end) v); try eassumption.
      intros Hr. rewrite Hr in Hstopped. discriminate.
    + assert (Hb : batches_of (a :: acts) = batches_of acts).
      { destruct a; try reflexivity. destruct (Huser r eq_refl). }
      rewrite Hb in Hinc, Hcont.
      eapply (IH seen v1); try eassumption.
      * rewrite (uf_drops _ _ Hframe). exact Hzero.
      * intros Hr. rewrite (uf_last _ _ Hframe). apply Hlast.
        apply (uf_running _ _ Hframe). exact Hr.
Qed.

(** C5, as the code has it.  In every run from a fresh viewer whose drained
    frames have strictly increasing sequences, and in which every batch after
    the first starts one above the last sequence of the batch before it,
    [frame_drops] remains 0. *)
Theorem contiguous_stream_no_drops (now : Q) (acts : list Action) (v : Viewer) :
  run acts (new_viewer now) = Ok v ->
  increasing (List.concat (batches_of acts)) ->
  contiguous None (batches_of acts) ->
  frame_drops v = 0.
Proof.
  intros Hrun Hinc Hcont.
  eapply (drops_stay_zero acts None (new_viewer now)); try eassumption;
    reflexivity.
Qed.

End StreamProofs.

(** ** The rolling window *)

Lemma fold_left_Qplus (l : list Q) (a : Q) :
  (fold_left Qplus l a == a + fold_right Qplus 0 l)%Q.
Proof.
  revert a. induction l as [|x l IH]; intros a; cbn.
  - ring.
  - rewrite IH. ring.
Qed.

Lemma py_sum_fold_right (l : list Q) : (py_sum l == fold_right Qplus 0 l)%Q.
Proof. unfold py_sum. rewrite fold_left_Qplus. ring. Qed.

Lemma average_is_mean (l : list Q) :
  l <> [] -> is_mean (py_sum l / py_len l)%Q l.
Proof.
  intros Hne. split; [exact Hne|].
  fold (py_len l). rewrite <- py_sum_fold_right.
  assert (Hlen : ~ (py_len l == 0)%Q).
  { destruct l as [|x l]; [congruence|].
    apply Qeq_bool_neq, py_len_nonzero. }
  field. exact Hlen.
Qed.

Lemma rate_step_length (current_time last_time : Q) (samples : list Q) :
  (List.length samples <= 10)%nat ->
  (List.length match rate_sample current_time last_time with
               | Some fps => window_push fps samples
               | None => samples
               end <= 10)%nat.
Proof.
  intros Hlen. destruct (rate_sample current_time last_time);
    [apply window_push_length|]; exact Hlen.
Qed.

Lemma window_ok_new (now : Q) : window_ok (new_viewer now).
Proof. split; cbn; [lia | reflexivity]. Qed.

Lemma window_ok_step (a : Action) (v v' : Viewer) :
  window_ok v -> step a v = Ok v' -> window_ok v'.
Proof.
  intros [Hlen Hlabel] Hstep.
  destruct (step_cases a v v' Hstep)
    as [(r & v1 & -> & Hrunning & Heff)|[(r & -> & Hstopped & ->)|[Huser Hframe]]].
  - pose proof (te_samples _ _ _ _ Heff) as Hs.
    pose proof (te_labels _ _ _ _ Heff frame_rate_label) as Hl.
    cbn [tick_labels] in Hl.
    rewrite (te_labels1 _ _ _ _ Heff) in Hl by reflexivity.
    split.
    + rewrite Hs. destruct (get_all_unread_pose_frames r); [exact Hlen|].
      apply rate_step_length. exact Hlen.
    + rewrite Hl. destruct (frame_rate_samples v') as [|x l] eqn:Hv';
        [|reflexivity].
      assert (Hv : frame_rate_samples v = []).
      { destruct (get_all_unread_pose_frames r); [congruence|].
        destruct (rate_sample (time_time r) (last_frame_time v)) as [fps|];
          [|congruence].
        symmetry in Hs. apply window_push_nonempty in Hs; [destruct Hs|].
        exact Hlen. }
      rewrite Hlabel, Hv. reflexivity.
  - split; assumption.
  - split.
    + rewrite (uf_samples _ _ Hframe). exact Hlen.
    + rewrite (uf_labels _ _ Hframe) by discriminate.
      rewrite (uf_samples _ _ Hframe). exact Hlabel.
Qed.

Lemma reachable_window_ok (v : Viewer) : reachable v -> window_ok v.
Proof.
  intros (now & acts & Hrun).
  eapply (run_invariant window_ok); [|apply window_ok_new|exact Hrun].
  intros a v0 v1. apply window_ok_step.
Qed.

(** C4.  After every operation the window holds at most 10 samples; the
    frame-rate label shows no value exactly when the window is empty and
    otherwise the arithmetic mean of the samples; a sample pushed on a full
    window evicts the oldest one, and is appended otherwise. *)
Theorem rolling_rate_window :
  (forall v, reachable v ->
     (List.length (frame_rate_samples v) <= 10)%nat /\
     (frame_rate_samples v = [] <->
      labels v frame_rate_label = Txt "Frame Rate: --- Hz") /\
     (frame_rate_samples v <> [] ->
      exists avg,
        labels v frame_rate_label = TxtFloat "Frame Rate: " avg 1 " Hz" /\
        is_mean avg (frame_rate_samples v))) /\
  (forall current_time v fps,
     rate_sample current_time (last_frame_time v) = Some fps ->
     exists v',
       calculate_frame_rate current_time v = Ok v' /\
       (List.length (frame_rate_samples v) = 10%nat ->
        frame_rate_samples v' = tl (frame_rate_samples v) ++ [fps]) /\
       ((List.length (frame_rate_samples v) < 10)%nat ->
        frame_rate_samples v' = frame_rate_samples v ++ [fps])).
Proof.
  split.
  - intros v Hreach. destruct (reachable_window_ok v Hreach) as [Hlen Hlabel].
    split; [exact Hlen|]. split; [split|].
    + intros Hnil. rewrite Hlabel, Hnil. reflexivity.
    + intros Htxt. rewrite Hlabel in Htxt.
      destruct (frame_rate_samples v); [reflexivity | discriminate].
    + intros Hne. destruct (frame_rate_samples v) as [|x l] eqn:Hs;
        [congruence|].
      eexists. split; [exact Hlabel|]. apply average_is_mean. discriminate.
  - intros current_time v fps Hsample.
    rewrite calculate_frame_rate_eq, Hsample. eexists. split; [reflexivity|].
    fields. split; intros Hlen.
    + apply window_push_full. exact Hlen.
    + apply window_push_room. exact Hlen.
Qed.

(** C8.  The time stamp of a tick is read once, so whatever the number of
    frames in the batch the window receives at most one sample in a tick,
    the one of the first frame: once a frame has set [last_frame_time] to the
    time of the tick, the frame-rate block of a later frame of the same tick
    adds nothing. *)
Theorem one_sample_per_tick :
  (forall r v v',
     _update_loop r v = Ok v' ->
     frame_rate_samples v' = frame_rate_samples v \/
     exists fps,
       rate_sample (time_time r) (last_frame_time v) = Some fps /\
       frame_rate_samples v' = window_push fps (frame_rate_samples v)) /\
  (forall current_time frames frame v v',
     process_frame current_time frames frame v = Ok v' ->
     last_frame_time v' = current_time) /\
  (forall current_time v,
     last_frame_time v = current_time ->
     exists v',
       calculate_frame_rate current_time v = Ok v' /\
       frame_rate_samples v' = frame_rate_samples v).
Proof.
  split; [|split].
  - intros r v v' Hok. destruct (_running v) eqn:Hrun.
    + destruct (tick_running r v Hrun) as (v1 & v2 & Hok2 & Heff).
      rewrite Hok in Hok2. injection Hok2 as <-.
      rewrite (te_samples _ _ _ _ Heff).
      destruct (get_all_unread_pose_frames r); [left; reflexivity|].
      destruct (rate_sample (time_time r) (last_frame_time v)) as [fps|];
        [right; eauto | left; reflexivity].
    + rewrite tick_stopped in Hok by assumption. injection Hok as <-.
      left. reflexivity.
  - intros current_time frames frame v v' Hok. unfold process_frame in Hok.
    destruct (detect_frame_drops frames frame _) as [v1|e]; [|discriminate].
    cbn [bind] in Hok. rewrite calculate_frame_rate_eq in Hok.
    cbn [bind] in Hok. injection Hok as <-. reflexivity.
  - intros current_time v <-. rewrite calculate_frame_rate_eq.
    rewrite rate_sample_same_time. eexists. split; reflexivity.
Qed.

(** ** What a tick writes to the log *)

Lemma new_log_app (v v' : Viewer) (added : list LogMsg) :
  log v' = log v ++ added -> new_log v v' = added.
Proof.
  intros Hlog. unfold new_log. rewrite Hlog, skipn_app, skipn_all.
  rewrite Nat.sub_diag. reflexivity.
Qed.

Lemma new_log_same (v : Viewer) : new_log v v = [].
Proof. apply new_log_app. rewrite app_nil_r. reflexivity. Qed.

Lemma filter_written (kind : LogMsg -> bool) (p : bool) (l : list LogMsg) :
  filter kind (written p l) = written p (filter kind l).
Proof. destruct p; reflexivity. Qed.

Lemma filter_conn_msgs (kind : LogMsg -> bool) (events : list ConnEvent) :
  (forall ip, kind (MsgConnectedFrom ip) = false) ->
  kind MsgDisconnected = false ->
  filter kind (conn_msgs events) = [].
Proof.
  intros Hc Hd. induction events as [|e events IH]; [reflexivity|].
  cbn [conn_msgs flat_map]. fold (conn_msgs events).
  rewrite filter_app, IH, app_nil_r.
  destruct (is_kConnected e); [|destruct (is_kDisconnected e)]; cbn;
    rewrite ?Hc, ?Hd; reflexivity.
Qed.

Lemma filter_dropped (kind : LogMsg -> bool) (ds : list Z) :
  (forall d, kind (WarnDropped d) = false) ->
  filter kind (map WarnDropped ds) = [].
Proof.
  intros Hk. induction ds as [|d ds IH]; [reflexivity|].
  cbn. rewrite Hk. exact IH.
Qed.

Lemma filter_edge_event (kind : LogMsg -> bool) (was : option bool)
    (flag : bool) (started lost : LogMsg) (keep : bool) :
  kind started = keep -> kind lost = keep ->
  filter kind (edge_event was flag started lost) =
  if keep then edge_event was flag started lost else [].
Proof.
  intros Hs Hl. destruct was as [[|]|], flag, keep; cbn;
    rewrite ?Hs, ?Hl; reflexivity.
Qed.

Lemma filter_low_battery (kind : LogMsg -> bool) (warned : bool)
    (battery : option Z) (keep : bool) :
  (forall b, kind (WarnLowBattery b) = keep) ->
  filter kind (low_battery_msgs warned battery) =
  if keep then low_battery_msgs warned battery else [].
Proof.
  intros Hk. unfold low_battery_msgs. destruct battery as [b|].
  - destruct ((b <? 20) && negb warned); cbn; [rewrite Hk|];
      destruct keep; reflexivity.
  - destruct keep; reflexivity.
Qed.

(** The log lines of each kind that a tick of a running viewer writes. *)
Lemma tick_new_log (r : Readings) (v v1 v' : Viewer) :
  tick_effect r v v1 v' ->
  filter is_low_battery (new_log v v') =
    written (log_paused v)
      (low_battery_msgs (hasattr v _low_battery_warned)
         (get_battery_percent r)) /\
  filter is_connection_edge (new_log v v') =
    written (log_paused v)
      (edge_event (attrs v _was_connected) (is_connected r)
         OkQuestConnected WarnQuestDisconnected) /\
  filter is_tracking_edge (new_log v v') =
    written (log_paused v)
      (edge_event (attrs v _was_tracking) (is_tracking r)
         OkTrackingStarted WarnTrackingLost).
Proof.
  intros Heff. destruct (te_log _ _ _ _ Heff) as (ds & _ & Hlog).
  rewrite (new_log_app _ _ _ Hlog). unfold tick_msgs.
  rewrite !filter_written, !filter_app.
  repeat split.
  - rewrite filter_conn_msgs, filter_dropped by reflexivity.
    rewrite (filter_low_battery _ _ _ true) by reflexivity.
    rewrite !(filter_edge_event _ _ _ _ _ false) by reflexivity.
    rewrite !app_nil_r. reflexivity.
  - rewrite filter_conn_msgs, filter_dropped by reflexivity.
    rewrite (filter_low_battery _ _ _ false) by reflexivity.
    rewrite (filter_edge_event _ _ _ OkQuestConnected _ true) by reflexivity.
    rewrite (filter_edge_event _ _ _ OkTrackingStarted _ false) by reflexivity.
    rewrite !app_nil_r. reflexivity.
  - rewrite filter_conn_msgs, filter_dropped by reflexivity.
    rewrite (filter_low_battery _ _ _ false) by reflexivity.
    rewrite (filter_edge_event _ _ _ OkQuestConnected _ false) by reflexivity.
    rewrite (filter_edge_event _ _ _ OkTrackingStarted _ true) by reflexivity.
    reflexivity.
Qed.

(** ** The tick as a whole *)

(** C6.  A tick returns for every viewer and all readings: none of the
    operations that can raise does.  A running viewer schedules the next
    tick, and a reading that is unavailable leaves its label as it was. *)
Theorem tick_never_raises (r : Readings) (v : Viewer) :
  exists v',
    _update_loop r v = Ok v' /\
    (_running v = true -> after_calls v' = after_calls v ++ [50]) /\
    (get_battery_percent r = None ->
     labels v' batt_label = labels v batt_label) /\
    (get_frame_count r = None ->
     labels v' frame_count_label = labels v frame_count_label) /\
    (get_tracking_lost_counter r = None ->
     labels v' tracking_lost_label = labels v tracking_lost_label) /\
    (get_all_unread_pose_frames r = [] ->
     total_frames_received v' = total_frames_received v /\
     last_frame_count v' = last_frame_count v /\
     frame_drops v' = frame_drops v /\
     frame_rate_samples v' = frame_rate_samples v /\
     last_frame_time v' = last_frame_time v).
Proof.
  destruct (_running v) eqn:Hrun.
  - destruct (tick_running r v Hrun) as (v1 & v' & Hok & Heff).
    exists v'. split; [exact Hok|].
    split; [intros _; apply (te_after _ _ _ _ Heff)|].
    split; [|split; [|split]].
    + intros Hnone. rewrite (te_labels _ _ _ _ Heff). cbn [tick_labels].
      rewrite Hnone. apply (te_labels1 _ _ _ _ Heff). reflexivity.
    + intros Hnone. rewrite (te_labels _ _ _ _ Heff). cbn [tick_labels].
      rewrite Hnone. apply (te_labels1 _ _ _ _ Heff). reflexivity.
    + intros Hnone. rewrite (te_labels _ _ _ _ Heff). cbn [tick_labels].
      rewrite Hnone. apply (te_labels1 _ _ _ _ Heff). reflexivity.
    + intros Hnil.
      rewrite (te_total _ _ _ _ Heff), (te_last _ _ _ _ Heff),
        (te_samples _ _ _ _ Heff), (te_time _ _ _ _ Heff),
        (tick_empty_drops r v v1 v' Heff Hnil), Hnil.
      cbn. repeat split; lia.
  - exists v. split; [apply tick_stopped; exact Hrun|].
    split; [discriminate|]. repeat split; reflexivity.
Qed.

(** C7.  When one of the four entries is not a number, [send_custom_pose]
    shows an error box and changes nothing else: no [set_pose] call is made,
    nothing is logged, the dialog stays open.  When all four are numbers,
    exactly one [set_pose] call is made, with the pose built from them. *)
Theorem custom_pose_validation (x_entry y_entry z_entry yaw_entry : string)
    (v : Viewer) :
  (py_float x_entry = None \/ py_float y_entry = None \/
   py_float z_entry = None \/ py_float yaw_entry = None ->
   exists v' detail,
     send_custom_pose x_entry y_entry z_entry yaw_entry v = Ok v' /\
     v' = set_messageboxes
            (messageboxes v ++ [ShowError "Invalid Input" detail]) v /\
     questnav v' = questnav v /\
     log v' = log v /\
     dialog_open v' = dialog_open v) /\
  (forall x y z yaw_deg,
     py_float x_entry = Some x -> py_float y_entry = Some y ->
     py_float z_entry = Some z -> py_float yaw_entry = Some yaw_deg ->
     exists v',
       send_custom_pose x_entry y_entry z_entry yaw_entry v = Ok v' /\
       questnav v' =
         questnav v ++
         [SetPose {| translation := {| tX := x; tY := y; tZ := z |};
                     rotation := {| rX := 0; rY := 0;
                                    rZ := math_radians yaw_deg |} |}] /\
       messageboxes v' = messageboxes v /\
       log v' = log v ++ written (log_paused v)
                           [CmdResetCustom x y z yaw_deg; MsgWaitingResponse] /\
       dialog_open v' = false).
Proof.
  unfold send_custom_pose, send_custom_pose_try, float_of_entry. split.
  - intros Hbad.
    destruct (py_float x_entry) as [x|]; cbn [bind];
      [|eexists _, _; split; [reflexivity|repeat split]].
    destruct (py_float y_entry) as [y|]; cbn [bind];
      [|eexists _, _; split; [reflexivity|repeat split]].
    destruct (py_float z_entry) as [z|]; cbn [bind];
      [|eexists _, _; split; [reflexivity|repeat split]].
    destruct (py_float yaw_entry) as [w|]; cbn [bind];
      [|eexists _, _; split; [reflexivity|repeat split]].
    destruct Hbad as [H|[H|[H|H]]]; discriminate.
  - intros x y z yaw_deg -> -> -> ->. cbn [bind].
    eexists. split; [reflexivity|].
    rewrite !_log_eq. fields. repeat split.
    rewrite <- app_assoc, <- written_app. reflexivity.
Qed.

(** ** Low battery *)

Lemma low_battery_fired (warned : bool) (battery : option Z) (m : LogMsg)
    (l : list LogMsg) :
  low_battery_msgs warned battery = m :: l ->
  exists b, battery = Some b /\ b < 20 /\ warned = false /\
            m = WarnLowBattery b /\ l = [].
Proof.
  unfold low_battery_msgs. destruct battery as [b|]; [|discriminate].
  destruct (b <? 20) eqn:Hlow; destruct warned; cbn; try discriminate.
  intros Heq. injection Heq as <- <-. apply Z.ltb_lt in Hlow. eauto 6.
Qed.

Lemma warned_step (a : Action) (v v' : Viewer) :
  attrs v _low_battery_warned = Some true ->
  step a v = Ok v' ->
  attrs v' _low_battery_warned = Some true.
Proof.
  intros Hw Hstep.
  destruct (step_cases a v v' Hstep)
    as [(r & v1 & -> & Hrunning & Heff)|[(r & -> & Hstopped & ->)|[Huser Hframe]]].
  - rewrite (te_attrs _ _ _ _ Heff). cbn [tick_attrs].
    destruct (low_battery_msgs _ _); [exact Hw | reflexivity].
  - exact Hw.
  - rewrite (uf_attrs _ _ Hframe). exact Hw.
Qed.

Lemma in_filter_low_battery (b : Z) (l : list LogMsg) :
  In (WarnLowBattery b) l -> In (WarnLowBattery b) (filter is_low_battery l).
Proof. intros Hin. apply filter_In. split; [exact Hin | reflexivity]. Qed.

(** C10.  Once a tick has written the low-battery warning (which it does
    only for a battery below 20, and once in the tick), no tick of the rest
    of the run writes it again, whatever the ticks and user actions in
    between and whatever the battery does. *)
Theorem low_battery_warned_once (r : Readings) (v v1 : Viewer) (b : Z)
    (acts : list Action) (v2 : Viewer) (r2 : Readings) (v3 : Viewer) :
  _update_loop r v = Ok v1 ->
  In (WarnLowBattery b) (new_log v v1) ->
  run acts v1 = Ok v2 ->
  _update_loop r2 v2 = Ok v3 ->
  get_battery_percent r = Some b /\ b < 20 /\
  filter is_low_battery (new_log v v1) = [WarnLowBattery b] /\
  forall b', ~ In (WarnLowBattery b') (new_log v2 v3).
Proof.
  intros Hok Hin Hrun Hok2.
  assert (Hfirst : get_battery_percent r = Some b /\ b < 20 /\
                   filter is_low_battery (new_log v v1) = [WarnLowBattery b] /\
                   attrs v1 _low_battery_warned = Some true).
  { destruct (_running v) eqn:Hrunning.
    2:{ rewrite tick_stopped in Hok by assumption. injection Hok as <-.
        rewrite new_log_same in Hin. destruct Hin. }
    destruct (tick_running r v Hrunning) as (v0 & v' & Hok' & Heff).
    rewrite Hok in Hok'. injection Hok' as <-.
    destruct (tick_new_log r v v0 v1 Heff) as (Hlow & _ & _).
    apply in_filter_low_battery in Hin. rewrite Hlow in Hin |- *.
    pose proof (te_attrs _ _ _ _ Heff _low_battery_warned) as Hattr.
    cbn [tick_attrs] in Hattr.
    destruct (log_paused v); [destruct Hin|]. cbn [written] in Hin |- *.
    destruct (low_battery_msgs _ _) as [|m l] eqn:Hmsgs; [destruct Hin|].
    destruct (low_battery_fired _ _ _ _ Hmsgs) as (b0 & Hb & Hlt & _ & -> & ->).
    destruct Hin as [Heq|[]]. injection Heq as ->. auto. }
  destruct Hfirst as (Hb & Hlt & Honce & Hwarned).
  repeat split; try assumption.
  intros b' Hin'.
  assert (Hwarned2 : attrs v2 _low_battery_warned = Some true).
  { eapply (run_invariant
              (fun v => attrs v _low_battery_warned = Some true));
      [|exact Hwarned|exact Hrun].
    intros a u u'. apply warned_step. }
  destruct (_running v2) eqn:Hrunning.
  2:{ rewrite tick_stopped in Hok2 by assumption. injection Hok2 as <-.
      rewrite new_log_same in Hin'. destruct Hin'. }
  destruct (tick_running r2 v2 Hrunning) as (v0 & v' & Hok' & Heff).
  rewrite Hok2 in Hok'. injection Hok' as <-.
  destruct (tick_new_log r2 v2 v0 v3 Heff) as (Hlow & _ & _).
  apply in_filter_low_battery in Hin'. rewrite Hlow in Hin'.
  unfold hasattr in Hin'. rewrite Hwarned2 in Hin'.
  unfold low_battery_msgs in Hin'.
  destruct (get_battery_percent r2) as [b2|], (log_paused v2);
    cbn in Hin'; try destruct Hin'.
  rewrite andb_false_r in Hin'. destruct Hin'.
Qed.

(** ** Tracking and connection *)

(** C2, as the code has it.  The value that a tick shows as "Tracking Lost
    Events" is the counter reported by the device, left as it was when that
    reading is unavailable; it does not depend on the tracking flag.  A
    true->false transition of the tracking flag writes one "Tracking lost!"
    line to the log (none while the log is paused) and changes no counter of
    the viewer. *)
Theorem tracking_lost_label_is_raw (r : Readings) (v v' : Viewer) :
  _running v = true ->
  _update_loop r v = Ok v' ->
  labels v' tracking_lost_label =
    match get_tracking_lost_counter r with
    | Some n => TxtInt "Tracking Lost Events: " n ""
    | None => labels v tracking_lost_label
    end /\
  (attrs v _was_tracking = Some true -> is_tracking r = false ->
   filter is_tracking_edge (new_log v v') =
     written (log_paused v) [WarnTrackingLost] /\
   (get_all_unread_pose_frames r = [] ->
    total_frames_received v' = total_frames_received v /\
    frame_drops v' = frame_drops v)).
Proof.
  intros Hrun Hok.
  destruct (tick_running r v Hrun) as (v1 & v2 & Hok2 & Heff).
  rewrite Hok in Hok2. injection Hok2 as <-.
  split.
  - rewrite (te_labels _ _ _ _ Heff). cbn [tick_labels].
    destruct (get_tracking_lost_counter r); [reflexivity|].
    apply (te_labels1 _ _ _ _ Heff). reflexivity.
  - intros Hwas Hnow. split.
    + destruct (tick_new_log r v v1 v' Heff) as (_ & _ & Htrack).
      rewrite Htrack, Hwas, Hnow. reflexivity.
    + intros Hnil. rewrite (te_total _ _ _ _ Heff), Hnil.
      rewrite (tick_empty_drops r v v1 v' Heff Hnil). cbn. lia.
Qed.

(** A run of ticks of a running viewer whose log is not paused: it returns,
    and the edge events of each tick are those of [edge_trace]. *)
Lemma ticks_edge_trace (rs : list Readings) :
  forall v,
    _running v = true ->
    log_paused v = false ->
    exists vs,
      ticks rs v = Ok vs /\
      edges_per_tick is_connection_edge v vs =
        edge_trace OkQuestConnected WarnQuestDisconnected
          (attrs v _was_connected) (map is_connected rs) /\
      edges_per_tick is_tracking_edge v vs =
        edge_trace OkTrackingStarted WarnTrackingLost
          (attrs v _was_tracking) (map is_tracking rs).
Proof.
  induction rs as [|r rs IH]; intros v Hrun Hpause.
  - exists []. repeat split.
  - destruct (tick_running r v Hrun) as (v1 & v' & Hok & Heff).
    destruct (IH v') as (vs & Hticks & Hconn & Htrack).
    { rewrite (te_running _ _ _ _ Heff). exact Hrun. }
    { rewrite (te_paused _ _ _ _ Heff). exact Hpause. }
    exists (v' :: vs). cbn [ticks]. rewrite Hok. cbn [bind].
    rewrite Hticks. cbn [bind]. split; [reflexivity|].
    destruct (tick_new_log r v v1 v' Heff) as (_ & Hc & Ht).
    cbn [edges_per_tick map edge_trace].
    rewrite Hconn, Htrack, Hc, Ht, Hpause, !(te_attrs _ _ _ _ Heff).
    split; reflexivity.
Qed.

(** C3, as the code has it.  The previous value of each flag is unknown
    before the first tick, and a tick of a running viewer writes for each
    flag the edge event of [edge_event]: nothing when the previous value is
    unknown or equal, "started" on false->true, "lost" on true->false; the
    line reaches the log unless the log is paused, and the tick stores the
    flags for the next one.  From a fresh viewer, ticks that read the flag
    as false, false, true, true, false write one "started" event at the
    third tick, one "lost" event at the fifth, and nothing else. *)
Theorem edge_events_per_tick :
  (forall r v v',
     _running v = true ->
     _update_loop r v = Ok v' ->
     filter is_connection_edge (new_log v v') =
       written (log_paused v)
         (edge_event (attrs v _was_connected) (is_connected r)
            OkQuestConnected WarnQuestDisconnected) /\
     filter is_tracking_edge (new_log v v') =
       written (log_paused v)
         (edge_event (attrs v _was_tracking) (is_tracking r)
            OkTrackingStarted WarnTrackingLost) /\
     attrs v' _was_connected = Some (is_connected r) /\
     attrs v' _was_tracking = Some (is_tracking r)) /\
  (forall now,
     attrs (new_viewer now) _was_connected = None /\
     attrs (new_viewer now) _was_tracking = None) /\
  (forall now rs,
     map is_connected rs = [false; false; true; true; false] ->
     exists vs,
       ticks rs (new_viewer now) = Ok vs /\
       edges_per_tick is_connection_edge (new_viewer now) vs =
         [[]; []; [OkQuestConnected]; []; [WarnQuestDisconnected]]) /\
  (forall now rs,
     map is_tracking rs = [false; false; true; true; false] ->
     exists vs,
       ticks rs (new_viewer now) = Ok vs /\
       edges_per_tick is_tracking_edge (new_viewer now) vs =
         [[]; []; [OkTrackingStarted]; []; [WarnTrackingLost]]).
Proof.
  split; [|split; [|split]].
  - intros r v v' Hrun Hok.
    destruct (tick_running r v Hrun) as (v1 & v2 & Hok2 & Heff).
    rewrite Hok in Hok2. injection Hok2 as <-.
    destruct (tick_new_log r v v1 v' Heff) as (_ & Hc & Ht).
    rewrite !(te_attrs _ _ _ _ Heff). auto.
  - intros now. split; reflexivity.
  - intros now rs Hflags.
    destruct (ticks_edge_trace rs (new_viewer now) eq_refl eq_refl)
      as (vs & Hticks & Hc & _).
    exists vs. split; [exact Hticks|]. rewrite Hc, Hflags. reflexivity.
  - intros now rs Hflags.
    destruct (ticks_edge_trace rs (new_viewer now) eq_refl eq_refl)
      as (vs & Hticks & _ & Ht).
    exists vs. split; [exact Hticks|]. rewrite Ht, Hflags. reflexivity.
Qed.

(** * Further properties of the viewer *)

(** ** The log *)

(** The cases of a user action, each with the viewer it returns written as
    setters applied to the viewer it started from. *)
Ltac user_cases a Hstep :=
  destruct a as [?r| | |?xe ?ye ?ze ?we| | |?fn ?wr|]; cbn [step] in Hstep;
  [ idtac
  | injection Hstep as <-; unfold _reset_pose_origin; rewrite ?_log_eq
  | injection Hstep as <-; unfold _reset_pose_custom
  | unfold send_custom_pose, send_custom_pose_try, float_of_entry in Hstep;
    repeat match type of Hstep with
           | context [py_float ?s] => destruct (py_float s); cbn [bind] in Hstep
           end;
    injection Hstep as <-; rewrite ?_log_eq
  | injection Hstep as <-; unfold _clear_log; fields;
    destruct (log_paused _) eqn:?Hp; cbn [negb]; rewrite ?_log_eq; fields;
    rewrite ?Hp
  | injection Hstep as <-; unfold _toggle_log_pause; fields;
    destruct (log_paused _) eqn:?Hp; cbn [negb]; rewrite ?_log_eq; fields;
    rewrite ?Hp
  | injection Hstep as <-; unfold _export_log;
    destruct (String.eqb _ EmptyString); [|destruct wr; fields;
      [destruct (log_paused _) eqn:?Hp; cbn [negb]; rewrite ?_log_eq; fields;
       rewrite ?Hp|]]
  | injection Hstep as <-; unfold stop ].

(** X5.  The log only grows: every step but clearing the log keeps the
    lines that were there and appends to them. *)
Theorem log_append_only (a : Action) (v v' : Viewer) :
  is_clear_log a = false ->
  step a v = Ok v' ->
  exists added, log v' = log v ++ added.
Proof.
  intros Hclear Hstep.
  destruct (step_cases a v v' Hstep)
    as [(r & v1 & -> & Hrunning & Heff)|[(r & -> & Hstopped & ->)|[Huser _]]].
  - destruct (te_log _ _ _ _ Heff) as (ds & _ & Hlog). eauto.
  - exists []. rewrite app_nil_r. reflexivity.
  - user_cases a Hstep; fields; try discriminate;
      try (eexists; reflexivity);
      try (exists []; rewrite app_nil_r; reflexivity).
    + destruct (Huser r eq_refl).
    + rewrite <- app_assoc. eexists; reflexivity.
    + rewrite <- app_assoc. eexists; reflexivity.
Qed.

(** X3.  While the log is paused nothing reaches it: every step but
    resuming or clearing the log leaves the log as it is and the viewer
    paused; the lines of that time are not kept for later. *)
Theorem paused_log_is_silent (a : Action) (v v' : Viewer) :
  log_paused v = true ->
  is_toggle a = false ->
  is_clear_log a = false ->
  step a v = Ok v' ->
  log v' = log v /\ log_paused v' = true.
Proof.
  intros Hpaused Htoggle Hclear Hstep.
  destruct (step_cases a v v' Hstep)
    as [(r & v1 & -> & Hrunning & Heff)|[(r & -> & Hstopped & ->)|[Huser _]]].
  - destruct (te_log _ _ _ _ Heff) as (ds & _ & Hlog).
    rewrite Hlog, Hpaused, (te_paused _ _ _ _ Heff). cbn [written].
    rewrite app_nil_r. auto.
  - auto.
  - user_cases a Hstep; fields; try discriminate;
      rewrite ?Hpaused in *; cbn [written]; rewrite ?app_nil_r;
      try discriminate; auto.
    destruct (Huser r eq_refl).
Qed.

(** X4.  Pausing and resuming (in either order) restores the pause flag and
    the text of the button, and leaves two marker lines in the log, also the
    one written while the log is paused. *)
Theorem toggle_twice (v : Viewer) :
  let v2 := _toggle_log_pause (_toggle_log_pause v) in
  log_paused v2 = log_paused v /\
  log v2 = log v ++ (if log_paused v then [MsgLogResumed; MsgLogPaused]
                     else [MsgLogPaused; MsgLogResumed]) /\
  labels v2 pause_log_btn =
    Txt (if log_paused v then "Resume Log" else "Pause Log") /\
  (forall l, l <> pause_log_btn -> labels v2 l = labels v l).
Proof.
  cbn zeta. unfold _toggle_log_pause. fields.
  destruct (log_paused v) eqn:Hp; cbn [negb]; rewrite ?_log_eq; fields;
    cbn [negb]; rewrite ?_log_eq; fields; rewrite ?Hp; cbn [negb written];
    rewrite <- ?app_assoc; repeat split;
    intros l Hl; destruct l; try reflexivity; congruence.
Qed.

(** ** The scheduler *)

Lemma step_user_effect (a : Action) (v v' : Viewer) :
  (forall r, a <> Tick r) -> step a v = Ok v' -> user_effect v v'.
Proof.
  intros Huser Hstep.
  user_cases a Hstep; try (constructor; fields; auto; fail).
  - destruct (Huser r eq_refl).
  - constructor; fields; auto. rewrite filter_app. cbn. apply app_nil_r.
  - constructor; fields; auto. rewrite filter_app. cbn. apply app_nil_r.
  - constructor; fields; auto. discriminate.
Qed.

(** X6.  Stopping is final.  After [run]'s [finally] has cleared
    [_running], no tick does anything and no user action restarts the loop:
    whatever follows, the counters, the window and the scheduled calls stay
    as they were. *)
Theorem stop_is_final (acts : list Action) (v v' : Viewer) :
  run acts (stop v) = Ok v' ->
  _running v' = false /\
  total_frames_received v' = total_frames_received v /\
  last_frame_count v' = last_frame_count v /\
  frame_drops v' = frame_drops v /\
  frame_rate_samples v' = frame_rate_samples v /\
  after_calls v' = after_calls v /\
  filter is_command_periodic (questnav v') =
    filter is_command_periodic (questnav v).
Proof.
  intros Hrun.
  apply (run_invariant
           (fun u => _running u = false /\
                     total_frames_received u = total_frames_received v /\
                     last_frame_count u = last_frame_count v /\
                     frame_drops u = frame_drops v /\
                     frame_rate_samples u = frame_rate_samples v /\
                     after_calls u = after_calls v /\
                     filter is_command_periodic (questnav u) =
                       filter is_command_periodic (questnav v)))
    with (acts := acts) (v := stop v); [|repeat split|exact Hrun].
  intros a u u' (Hr & Ht & Hl & Hd & Hs & Ha & Hq) Hstep.
  destruct (step_cases a u u' Hstep)
    as [(r & u1 & -> & Hrunning & Heff)|[(r & -> & Hstopped & ->)|[Huser Hframe]]].
  - rewrite Hr in Hrunning. discriminate.
  - repeat split; assumption.
  - pose proof (step_user_effect a u u' Huser Hstep) as Heffect.
    rewrite (uf_total _ _ Hframe), (uf_last _ _ Hframe), (uf_drops _ _ Hframe),
      (uf_samples _ _ Hframe), (ue_after _ _ Heffect),
      (ue_periodic _ _ Heffect).
    repeat split; try assumption.
    destruct (_running u') eqn:Hr'; [|reflexivity].
    rewrite (uf_running _ _ Hframe Hr') in Hr. discriminate.
Qed.

(** X7.  Over every run from a fresh viewer, the number of calls of
    [command_periodic] is the number of ticks scheduled, every one with a
    delay of 50 ms; a tick itself never calls [set_pose]. *)
Theorem one_periodic_call_per_tick :
  (forall now acts v,
     run acts (new_viewer now) = Ok v ->
     List.length (filter is_command_periodic (questnav v)) =
       List.length (after_calls v) /\
     Forall (fun delay => delay = 50) (after_calls v)) /\
  (forall r v v',
     _update_loop r v = Ok v' ->
     filter is_set_pose (questnav v') = filter is_set_pose (questnav v)).
Proof.
  split.
  - intros now acts v Hrun.
    apply (run_invariant
             (fun u => List.length (filter is_command_periodic (questnav u)) =
                         List.length (after_calls u) /\
                       Forall (fun delay => delay = 50) (after_calls u)))
      with (acts := acts) (v := new_viewer now);
      [|split; [reflexivity|constructor]|exact Hrun].
    intros a u u' [Hcount Hall] Hstep.
    destruct (step_cases a u u' Hstep)
      as [(r & u1 & -> & Hrunning & Heff)|[(r & -> & Hstopped & ->)|[Huser _]]].
    + rewrite (te_questnav _ _ _ _ Heff), (te_after _ _ _ _ Heff).
      rewrite filter_app, !length_app, Hcount. split; [reflexivity|].
      apply Forall_app. split; [exact Hall|]. repeat constructor.
    + split; assumption.
    + pose proof (step_user_effect a u u' Huser Hstep) as Heffect.
      rewrite (ue_periodic _ _ Heffect), (ue_after _ _ Heffect).
      split; assumption.
  - intros r v v' Hok. destruct (_running v) eqn:Hrun.
    + destruct (tick_running r v Hrun) as (v1 & v2 & Hok2 & Heff).
      rewrite Hok in Hok2. injection Hok2 as <-.
      rewrite (te_questnav _ _ _ _ Heff), filter_app. cbn. apply app_nil_r.
    + rewrite tick_stopped in Hok by assumption. injection Hok as <-.
      reflexivity.
Qed.

(** ** The counters *)

Lemma gap_nonneg (last count : Z) : 0 <= gap last count.
Proof.
  unfold gap. destruct (last >? 0); cbn; [|lia].
  destruct (count >? last + 1) eqn:Hgap; [|lia].
  apply Z.gtb_lt in Hgap. lia.
Qed.

Lemma for_frames_drops_le (current_time : Q) (first : PoseFrame)
    (more todo : list PoseFrame) :
  forall v v',
    for_frames current_time (first :: more) todo v = Ok v' ->
    frame_drops v <= frame_drops v'.
Proof.
  induction todo as [|g rest IH]; intros v v' Hrun.
  - cbn in Hrun. injection Hrun as <-. lia.
  - cbn [for_frames] in Hrun. rewrite process_frame_eq in Hrun.
    cbn [bind] in Hrun. apply IH in Hrun.
    unfold _update_pose_display in Hrun. fields in Hrun.
    pose proof (gap_nonneg (last_frame_count v) (frame_count g)).
    destruct (frame_eq g first); lia.
Qed.

(** X2.  The counters never go down: whatever a step is and whatever the
    batch holds, [total_frames_received] and [frame_drops] after it are at
    least what they were. *)
Theorem counters_never_decrease (a : Action) (v v' : Viewer) :
  step a v = Ok v' ->
  total_frames_received v <= total_frames_received v' /\
  frame_drops v <= frame_drops v'.
Proof.
  intros Hstep.
  destruct (step_cases a v v' Hstep)
    as [(r & v1 & -> & Hrunning & Heff)|[(r & -> & Hstopped & ->)|[Huser Hframe]]].
  - split.
    + rewrite (te_total _ _ _ _ Heff). lia.
    + rewrite (te_drops _ _ _ _ Heff).
      pose proof (te_loop _ _ _ _ Heff) as Hloop.
      assert (Hd0 : frame_drops (before_frames r v) = frame_drops v).
      { unfold before_frames. rewrite drain_events_eq. reflexivity. }
      rewrite <- Hd0.
      destruct (get_all_unread_pose_frames r) as [|f rest].
      * cbn in Hloop. injection Hloop as <-. lia.
      * eapply for_frames_drops_le. exact Hloop.
  - lia.
  - rewrite (uf_total _ _ Hframe), (uf_drops _ _ Hframe). lia.
Qed.

Lemma no_stop_running (acts : list Action) :
  forall v v',
    forallb (fun a => negb (is_stop a)) acts = true ->
    _running v = true ->
    run acts v = Ok v' ->
    _running v' = true /\
    total_frames_received v' = total_frames_received v + frames_drained acts.
Proof.
  unfold frames_drained.
  induction acts as [|a acts IH]; intros v v' Hno Hrunning Hrun.
  - cbn in Hrun. injection Hrun as <-. cbn. split; [assumption | lia].
  - cbn [run] in Hrun. destruct (step a v) as [v1|e] eqn:Ha; [|discriminate].
    cbn [bind] in Hrun. cbn [forallb] in Hno.
    apply andb_true_iff in Hno. destruct Hno as [Hna Hno].
    destruct (step_cases a v v1 Ha)
      as [(r & v0 & -> & _ & Heff)|[(r & -> & Hstopped & ->)|[Huser Hframe]]].
    + destruct (IH v1 v' Hno) as [Hr Ht]; [|exact Hrun|].
      { rewrite (te_running _ _ _ _ Heff). exact Hrunning. }
      split; [exact Hr|]. rewrite Ht, (te_total _ _ _ _ Heff).
      cbn [batches_of List.concat]. rewrite length_app, length_map. lia.
    + rewrite Hrunning in Hstopped. discriminate.
    + assert (Hr1 : _running v1 = true).
      { clear - Ha Hna Hrunning Huser. user_cases a Ha; fields;
          try assumption; try discriminate. destruct (Huser r eq_refl). }
      destruct (IH v1 v' Hno Hr1 Hrun) as [Hr Ht].
      split; [exact Hr|]. rewrite Ht, (uf_total _ _ Hframe).
      destruct a; try reflexivity. destruct (Huser r eq_refl).
Qed.

(** X1.  As long as the viewer is not stopped, every frame that a tick
    drains is counted: after a run from a fresh viewer without [Stop],
    [total_frames_received] is the number of frames of all the batches. *)
Theorem every_frame_is_counted (now : Q) (acts : list Action) (v : Viewer) :
  forallb (fun a => negb (is_stop a)) acts = true ->
  run acts (new_viewer now) = Ok v ->
  total_frames_received v = frames_drained acts.
Proof.
  intros Hno Hrun.
  destruct (no_stop_running acts (new_viewer now) v Hno eq_refl Hrun)
    as [_ Ht].
  rewrite Ht. reflexivity.
Qed.

Lemma shows_written (before : string) (n : Z) :
  shows (TxtInt before n "") before n.
Proof. left. reflexivity. Qed.

Lemma counters_shown_step (a : Action) (v v' : Viewer) :
  counters_shown v -> step a v = Ok v' -> counters_shown v'.
Proof.
  intros [Ht Hd] Hstep.
  destruct (step_cases a v v' Hstep)
    as [(r & v1 & -> & Hrunning & Heff)|[(r & -> & Hstopped & ->)|[Huser Hframe]]].
  - split; rewrite (te_labels _ _ _ _ Heff); cbn [tick_labels];
      apply shows_written.
  - split; assumption.
  - split.
    + rewrite (uf_labels _ _ Hframe) by discriminate.
      rewrite (uf_total _ _ Hframe). exact Ht.
    + rewrite (uf_labels _ _ Hframe) by discriminate.
      rewrite (uf_drops _ _ Hframe). exact Hd.
Qed.

(** X12.  What is shown never lags: in every viewer reachable from a fresh
    one, between any two steps, the "Total Received" and "Frame Drops"
    labels show the current values of [total_frames_received] and
    [frame_drops], the frames of the last tick included. *)
Theorem counters_are_shown (v : Viewer) :
  reachable v ->
  shows (labels v total_frames_label) "Total Received: "
    (total_frames_received v) /\
  shows (labels v frame_drops_label) "Frame Drops: " (frame_drops v).
Proof.
  intros (now & acts & Hrun).
  apply (run_invariant counters_shown) with (acts := acts)
    (v := new_viewer now); [|split; right; split; reflexivity|exact Hrun].
  intros a u u'. apply counters_shown_step.
Qed.

(** ** The rate estimator *)

Lemma Qgtb_false (a b : Q) : Qgtb a b = false -> (a <= b)%Q.
Proof.
  unfold Qgtb. intros Hle. apply negb_false_iff in Hle.
  apply Qle_bool_iff. exact Hle.
Qed.

Lemma Qgtb_lt (a b : Q) : (b < a)%Q -> Qgtb a b = true.
Proof.
  intros Hlt. destruct (Qgtb a b) eqn:Hgt; [reflexivity|].
  apply Qgtb_false in Hgt. destruct (Qlt_not_le _ _ Hlt Hgt).
Qed.

Lemma rate_sample_positive (current_time last_time fps : Q) :
  rate_sample current_time last_time = Some fps ->
  (0 < last_time)%Q /\ (last_time < current_time)%Q /\ (0 < fps)%Q /\
  fps = (1 / (current_time - last_time))%Q.
Proof.
  unfold rate_sample. destruct (Qgtb last_time 0) eqn:Hlast; [|discriminate].
  destruct (Qgtb (current_time - last_time) 0) eqn:Hdt; [|discriminate].
  intros Heq. injection Heq as <-.
  apply Qgtb_true in Hlast, Hdt.
  split; [exact Hlast|]. split; [|split; [|reflexivity]].
  - apply Qlt_minus_iff. exact Hdt.
  - unfold Qdiv. rewrite Qmult_1_l. apply Qinv_lt_0_compat. exact Hdt.
Qed.

Lemma rate_sample_none (current_time last_time : Q) :
  (last_time <= 0)%Q \/ (current_time <= last_time)%Q ->
  rate_sample current_time last_time = None.
Proof.
  intros Hguard. unfold rate_sample.
  destruct (Qgtb last_time 0) eqn:Hlast; [|reflexivity].
  destruct (Qgtb (current_time - last_time) 0) eqn:Hdt; [|reflexivity].
  apply Qgtb_true in Hlast, Hdt. apply Qlt_minus_iff in Hdt.
  destruct Hguard as [Hle|Hle].
  - destruct (Qlt_not_le _ _ Hlast Hle).
  - destruct (Qlt_not_le _ _ Hdt Hle).
Qed.

Lemma rate_sample_some (current_time last_time : Q) :
  (0 < last_time)%Q -> (last_time < current_time)%Q ->
  rate_sample current_time last_time =
  Some (1 / (current_time - last_time))%Q.
Proof.
  intros Hlast Hdt. unfold rate_sample.
  rewrite (Qgtb_lt _ _ Hlast).
  rewrite Qgtb_lt; [reflexivity|]. apply Qlt_minus_iff in Hdt. exact Hdt.
Qed.

Lemma window_push_positive (fps : Q) (samples : list Q) :
  (0 < fps)%Q ->
  Forall (fun x => (0 < x)%Q) samples ->
  Forall (fun x => (0 < x)%Q) (window_push fps samples).
Proof.
  intros Hfps Hall.
  assert (Happ : Forall (fun x => (0 < x)%Q) (samples ++ [fps])).
  { apply Forall_app. split; [exact Hall|]. repeat constructor. exact Hfps. }
  unfold window_push.
  destruct (10 <? Z.of_nat (List.length (samples ++ [fps]))); [|exact Happ].
  destruct (samples ++ [fps]) as [|x l]; [constructor|].
  inversion Happ. assumption.
Qed.

(** X8.  Every sample of the window is a positive rate, in every viewer
    reachable from a fresh one: a frame whose time is not after the time of
    the previous frame is never turned into a sample. *)
Theorem samples_are_positive (v : Viewer) :
  reachable v -> Forall (fun fps => (0 < fps)%Q) (frame_rate_samples v).
Proof.
  intros (now & acts & Hrun).
  apply (run_invariant samples_positive) with (acts := acts)
    (v := new_viewer now); [|constructor|exact Hrun].
  intros a u u' Hpos Hstep. unfold samples_positive in *.
  destruct (step_cases a u u' Hstep)
    as [(r & u1 & -> & Hrunning & Heff)|[(r & -> & Hstopped & ->)|[Huser Hframe]]].
  - rewrite (te_samples _ _ _ _ Heff).
    destruct (get_all_unread_pose_frames r); [exact Hpos|].
    destruct (rate_sample (time_time r) (last_frame_time u)) as [fps|] eqn:Hs;
      [|exact Hpos].
    apply window_push_positive; [|exact Hpos].
    apply rate_sample_positive in Hs. tauto.
  - exact Hpos.
  - rewrite (uf_samples _ _ Hframe). exact Hpos.
Qed.

(** X9.  When a tick adds a sample.  A tick of a running viewer that drains
    frames adds the sample 1 / (now - last_frame_time) when a frame was seen
    before (last_frame_time > 0) and time has passed since; it adds nothing
    for the first frames ever seen, nor when the clock has not advanced.
    In both cases the time of the tick becomes [last_frame_time]. *)
Theorem sample_needs_elapsed_time (r : Readings) (v v' : Viewer)
    (f : PoseFrame) (rest : list PoseFrame) :
  _running v = true ->
  get_all_unread_pose_frames r = f :: rest ->
  _update_loop r v = Ok v' ->
  last_frame_time v' = time_time r /\
  ((last_frame_time v <= 0)%Q \/ (time_time r <= last_frame_time v)%Q ->
   frame_rate_samples v' = frame_rate_samples v) /\
  ((0 < last_frame_time v)%Q -> (last_frame_time v < time_time r)%Q ->
   frame_rate_samples v' =
   window_push (1 / (time_time r - last_frame_time v))%Q
     (frame_rate_samples v)).
Proof.
  intros Hrun Hbatch Hok.
  destruct (tick_running r v Hrun) as (v1 & v2 & Hok2 & Heff).
  rewrite Hok in Hok2. injection Hok2 as <-.
  pose proof (te_samples _ _ _ _ Heff) as Hs.
  pose proof (te_time _ _ _ _ Heff) as Ht.
  rewrite Hbatch in Hs, Ht.
  split; [exact Ht|]. split.
  - intros Hguard. rewrite Hs, rate_sample_none by assumption. reflexivity.
  - intros Hlast Hdt. rewrite Hs, rate_sample_some by assumption. reflexivity.
Qed.

(** ** Uptime *)

Lemma py_int_nonneg (x : Q) : (0 <= x)%Q -> 0 <= py_int x.
Proof.
  intros Hx. unfold py_int. apply Z.quot_pos; [|lia].
  unfold Qle in Hx. cbn in Hx. lia.
Qed.

(** X11.  The uptime shown after a tick of a running viewer is minutes and
    seconds of the whole seconds since [start_time]: the seconds are between
    0 and 59, 60 * minutes + seconds is the truncated difference, and the
    minutes are not negative unless the clock is before the start. *)
Theorem uptime_is_minutes_and_seconds (r : Readings) (v v' : Viewer) :
  _running v = true ->
  _update_loop r v = Ok v' ->
  exists mins secs,
    labels v' uptime_label = TxtUptime mins secs /\
    0 <= secs < 60 /\
    60 * mins + secs = py_int (time_time r - start_time v)%Q /\
    ((start_time v <= time_time r)%Q -> 0 <= mins).
Proof.
  intros Hrun Hok.
  destruct (tick_running r v Hrun) as (v1 & v2 & Hok2 & Heff).
  rewrite Hok in Hok2. injection Hok2 as <-.
  pose proof (te_labels _ _ _ _ Heff uptime_label) as Hl.
  cbn [tick_labels] in Hl. rewrite (te_start _ _ _ _ Heff) in Hl.
  eexists _, _. split; [exact Hl|].
  set (s := py_int (time_time r - start_time v)%Q).
  split; [apply Z.mod_pos_bound; lia|]. split.
  - symmetry. apply Z.div_mod. lia.
  - intros Hle. apply Z.div_pos; [|lia]. apply py_int_nonneg.
    unfold Qminus. apply Qle_minus_iff in Hle. exact Hle.
Qed.

(** ** Warnings *)

Section DropWarning.
Context {Laws : LibraryLaws Lib}.

(** X13.  Small gaps are counted but not logged.  In a tick of a running
    viewer whose batch has no later frame that compares equal to the first,
    a "Dropped" warning is written only when the gap that the tick adds to
    [frame_drops] is above 5, once, with that gap as its number (and not at
    all while the log is paused). *)
Theorem drop_warning_above_five (r : Readings) (v v' : Viewer) (f : PoseFrame)
    (rest : list PoseFrame) :
  _running v = true ->
  get_all_unread_pose_frames r = f :: rest ->
  (forall g, In g rest -> frame_eq g f = false) ->
  _update_loop r v = Ok v' ->
  filter is_dropped (new_log v v') =
  written (log_paused v)
    (if 5 <? frame_drops v' - frame_drops v
     then [WarnDropped (frame_drops v' - frame_drops v)] else []).
Proof.
  intros Hrun Hbatch Hlater Hok.
  destruct (tick_running r v Hrun) as (v1 & v2 & Hok2 & Heff).
  rewrite Hok in Hok2. injection Hok2 as <-.
  pose proof (tick_batch_drops r v v1 v' f rest Heff Hbatch Hlater) as Hd.
  replace (frame_drops v' - frame_drops v)
    with (gap (last_frame_count v) (frame_count f)) by lia.
  set (d := gap (last_frame_count v) (frame_count f)).
  pose proof (te_loop _ _ _ _ Heff) as Hloop. rewrite Hbatch in Hloop.
  cbn [for_frames] in Hloop. rewrite process_frame_eq in Hloop.
  cbn [bind] in Hloop. apply for_frames_later in Hloop; [|exact Hlater].
  destruct Hloop as [_ Hlog1]. unfold _update_pose_display in Hlog1.
  fields in Hlog1. rewrite frame_eq_refl in Hlog1.
  unfold before_frames in Hlog1. rewrite drain_events_eq in Hlog1.
  fields in Hlog1. fold d in Hlog1.
  destruct (te_log _ _ _ _ Heff) as (ds & Hlogds & Hlog).
  rewrite Hlog1, written_app, app_assoc in Hlogds.
  apply app_inv_head in Hlogds.
  rewrite (new_log_app _ _ _ Hlog). unfold tick_msgs.
  rewrite !written_app, !filter_app, <- Hlogds, !filter_written.
  rewrite filter_conn_msgs by reflexivity.
  rewrite (filter_low_battery _ _ _ false) by reflexivity.
  rewrite !(filter_edge_event _ _ _ _ _ false) by reflexivity.
  rewrite written_nil, !app_nil_r. cbn [app]. f_equal.
  destruct (5 <? d); reflexivity.
Qed.

End DropWarning.

(** X14.  The low-battery warning is written in a tick of a running viewer
    exactly when the battery reading is available and below 20, no warning
    has been given before, and the log is not paused; a reading of 20 or
    more never warns.  The viewer remembers the warning whenever the first
    two conditions hold, paused or not. *)
Theorem low_battery_warning_condition (r : Readings) (v v' : Viewer) (b : Z) :
  _running v = true ->
  _update_loop r v = Ok v' ->
  (In (WarnLowBattery b) (new_log v v') <->
   get_battery_percent r = Some b /\ b < 20 /\
   hasattr v _low_battery_warned = false /\ log_paused v = false) /\
  (get_battery_percent r = Some b -> b < 20 ->
   hasattr v _low_battery_warned = false ->
   attrs v' _low_battery_warned = Some true) /\
  (get_battery_percent r = Some b -> 20 <= b ->
   attrs v' _low_battery_warned = attrs v _low_battery_warned).
Proof.
  intros Hrun Hok.
  destruct (tick_running r v Hrun) as (v1 & v2 & Hok2 & Heff).
  rewrite Hok in Hok2. injection Hok2 as <-.
  destruct (tick_new_log r v v1 v' Heff) as (Hlow & _ & _).
  pose proof (te_attrs _ _ _ _ Heff _low_battery_warned) as Hattr.
  cbn [tick_attrs] in Hattr.
  split; [split|split].
  - intros Hin. apply in_filter_low_battery in Hin. rewrite Hlow in Hin.
    destruct (log_paused v); [destruct Hin|]. cbn [written] in Hin.
    destruct (low_battery_msgs _ _) as [|m l] eqn:Hmsgs; [destruct Hin|].
    destruct (low_battery_fired _ _ _ _ Hmsgs)
      as (b0 & Hb & Hlt & Hw & -> & ->).
    destruct Hin as [Heq|[]]. injection Heq as ->. auto.
  - intros (Hb & Hlt & Hw & Hp).
    assert (Hin : In (WarnLowBattery b)
                    (filter is_low_battery (new_log v v'))).
    { rewrite Hlow, Hp, Hb, Hw. cbn [written low_battery_msgs negb].
      apply Z.ltb_lt in Hlt. rewrite Hlt. left. reflexivity. }
    apply filter_In in Hin. tauto.
  - intros Hb Hlt Hw. rewrite Hattr, Hb, Hw. cbn [low_battery_msgs negb].
    apply Z.ltb_lt in Hlt. rewrite Hlt. reflexivity.
  - intros Hb Hge. rewrite Hattr, Hb. cbn [low_battery_msgs].
    replace (b <? 20) with false by (symmetry; apply Z.ltb_ge; exact Hge).
    reflexivity.
Qed.

Lemma warned_tick_silent (r : Readings) (v v' : Viewer) :
  attrs v _low_battery_warned = Some true ->
  _update_loop r v = Ok v' ->
  forall b, ~ In (WarnLowBattery b) (new_log v v').
Proof.
  intros Hw Hok b Hin.
  destruct (_running v) eqn:Hrunning.
  2:{ rewrite tick_stopped in Hok by assumption. injection Hok as <-.
      rewrite new_log_same in Hin. destruct Hin. }
  destruct (tick_running r v Hrunning) as (v0 & v2 & Hok' & Heff).
  rewrite Hok in Hok'. injection Hok' as <-.
  destruct (tick_new_log r v v0 v' Heff) as (Hlow & _ & _).
  apply in_filter_low_battery in Hin. rewrite Hlow in Hin.
  unfold hasattr in Hin. rewrite Hw in Hin.
  unfold low_battery_msgs in Hin.
  destruct (get_battery_percent r) as [b2|], (log_paused v);
    cbn in Hin; try destruct Hin.
  rewrite andb_false_r in Hin. destruct Hin.
Qed.

(** X15.  A paused log uses up the warning.  When the first low reading
    comes while the log is paused, the tick writes nothing and still marks
    the warning as given: no later tick writes it, also after the log has
    been resumed and the battery reads low again. *)
Theorem paused_log_loses_battery_warning (r : Readings) (v v1 : Viewer)
    (b : Z) (acts : list Action) (v2 : Viewer) (r2 : Readings) (v3 : Viewer) :
  _running v = true ->
  log_paused v = true ->
  hasattr v _low_battery_warned = false ->
  get_battery_percent r = Some b ->
  b < 20 ->
  _update_loop r v = Ok v1 ->
  run acts v1 = Ok v2 ->
  _update_loop r2 v2 = Ok v3 ->
  log v1 = log v /\
  forall b', ~ In (WarnLowBattery b') (new_log v2 v3).
Proof.
  intros Hrun Hp Hw Hb Hlt Hok Hacts Hok2.
  destruct (tick_running r v Hrun) as (v0 & v' & Hok' & Heff).
  rewrite Hok in Hok'. injection Hok' as <-.
  split.
  - destruct (te_log _ _ _ _ Heff) as (ds & _ & Hlog).
    rewrite Hlog, Hp. cbn [written]. apply app_nil_r.
  - apply (warned_tick_silent r2 v2 v3); [|exact Hok2].
    apply (run_invariant
             (fun u => attrs u _low_battery_warned = Some true))
      with (acts := acts) (v := v1); [|
      |exact Hacts].
    + intros a u u'. apply warned_step.
    + rewrite (te_attrs _ _ _ _ Heff). cbn [tick_attrs].
      rewrite Hb, Hw. cbn [low_battery_msgs negb].
      apply Z.ltb_lt in Hlt. rewrite Hlt. reflexivity.
Qed.

(** ** The pose display and the pose commands *)

Lemma pose_display_text (pose : Pose3d) (v : Viewer) (l : Label) :
  is_pose_label l = true ->
  Some (labels (_update_pose_display pose v) l) = pose_text pose l.
Proof.
  intros Hl. unfold _update_pose_display. fields.
  destruct l; try discriminate; reflexivity.
Qed.

Lemma for_frames_cons (current_time : Q) (frames rest : list PoseFrame)
    (g : PoseFrame) (v : Viewer) :
  for_frames current_time frames (g :: rest) v =
  bind (process_frame current_time frames g v)
       (for_frames current_time frames rest).
Proof. reflexivity. Qed.

Lemma process_frame_pose (current_time : Q) (first : PoseFrame)
    (more : list PoseFrame) (g : PoseFrame) (v v' : Viewer) (l : Label) :
  process_frame current_time (first :: more) g v = Ok v' ->
  is_pose_label l = true ->
  Some (labels v' l) = pose_text (quest_pose_3d g) l.
Proof.
  intros Hrun Hl. rewrite process_frame_eq in Hrun.
  injection Hrun as Hv. rewrite <- Hv. apply pose_display_text. exact Hl.
Qed.

Lemma for_frames_pose (current_time : Q) (first : PoseFrame)
    (more rest : list PoseFrame) :
  forall g v v' l,
    for_frames current_time (first :: more) (g :: rest) v = Ok v' ->
    is_pose_label l = true ->
    Some (labels v' l) = pose_text (quest_pose_3d (last rest g)) l.
Proof.
  induction rest as [|g' rest IH]; intros g v v' l Hrun Hl;
    rewrite for_frames_cons in Hrun;
    destruct (process_frame current_time (first :: more) g v) as [v1|e]
      eqn:Hg; try discriminate; cbn [bind] in Hrun.
  - cbn [for_frames] in Hrun. injection Hrun as <-.
    eapply process_frame_pose; eassumption.
  - rewrite last_cons. eapply IH; eassumption.
Qed.

(** X16.  The pose shown after a tick of a running viewer is the pose of the
    last frame of the batch, in all six labels; a tick that drains nothing
    leaves the six labels as they were. *)
Theorem pose_display_shows_last_frame (r : Readings) (v v' : Viewer)
    (l : Label) :
  _running v = true ->
  is_pose_label l = true ->
  _update_loop r v = Ok v' ->
  match get_all_unread_pose_frames r with
  | [] => labels v' l = labels v l
  | f :: rest =>
      Some (labels v' l) = pose_text (quest_pose_3d (last rest f)) l
  end.
Proof.
  intros Hrun Hl Hok.
  destruct (tick_running r v Hrun) as (v1 & v2 & Hok2 & Heff).
  rewrite Hok in Hok2. injection Hok2 as <-.
  pose proof (te_loop _ _ _ _ Heff) as Hloop.
  assert (Hkeep : labels v' l = labels v1 l).
  { rewrite (te_labels _ _ _ _ Heff).
    destruct l; try discriminate; reflexivity. }
  rewrite Hkeep.
  destruct (get_all_unread_pose_frames r) as [|f rest].
  - cbn in Hloop. injection Hloop as <-. unfold before_frames.
    rewrite drain_events_eq. reflexivity.
  - eapply for_frames_pose; eassumption.
Qed.

Lemma step_poses (a : Action) (v v' : Viewer) :
  step a v = Ok v' ->
  filter is_set_pose (questnav v') =
  filter is_set_pose (questnav v) ++ map SetPose (poses_of [a]).
Proof.
  intros Hstep.
  destruct (step_cases a v v' Hstep)
    as [(r & v1 & -> & Hrunning & Heff)|[(r & -> & Hstopped & ->)|[Huser _]]].
  - rewrite (te_questnav _ _ _ _ Heff), filter_app. reflexivity.
  - cbn. rewrite app_nil_r. reflexivity.
  - destruct a as [r| | |xe ye ze we| | |fn wr|]; cbn [step] in Hstep.
    + destruct (Huser r eq_refl).
    + injection Hstep as <-. unfold _reset_pose_origin. rewrite !_log_eq.
      fields. rewrite filter_app. reflexivity.
    + injection Hstep as <-. cbn. rewrite app_nil_r. reflexivity.
    + unfold send_custom_pose, send_custom_pose_try, float_of_entry in Hstep.
      cbn [poses_of]. unfold custom_pose.
      destruct (py_float xe); cbn [bind] in Hstep;
        [|injection Hstep as <-; cbn; rewrite app_nil_r; reflexivity].
      destruct (py_float ye); cbn [bind] in Hstep;
        [|injection Hstep as <-; cbn; rewrite app_nil_r; reflexivity].
      destruct (py_float ze); cbn [bind] in Hstep;
        [|injection Hstep as <-; cbn; rewrite app_nil_r; reflexivity].
      destruct (py_float we); cbn [bind] in Hstep;
        [|injection Hstep as <-; cbn; rewrite app_nil_r; reflexivity].
      injection Hstep as <-. rewrite !_log_eq. fields.
      rewrite filter_app. reflexivity.
    + injection Hstep as <-. unfold _clear_log. fields.
      destruct (negb (log_paused v)); rewrite ?_log_eq; cbn;
        rewrite app_nil_r; reflexivity.
    + injection Hstep as <-. unfold _toggle_log_pause. fields.
      destruct (negb (log_paused v)); rewrite ?_log_eq; cbn;
        rewrite app_nil_r; reflexivity.
    + injection Hstep as <-. unfold _export_log.
      destruct (String.eqb fn EmptyString);
        [cbn; rewrite app_nil_r; reflexivity|].
      destruct wr; fields;
        [destruct (negb (log_paused v)); rewrite ?_log_eq|]; cbn;
        rewrite app_nil_r; reflexivity.
    + injection Hstep as <-. cbn. rewrite app_nil_r. reflexivity.
Qed.

Lemma poses_of_cons (a : Action) (acts : list Action) :
  poses_of (a :: acts) = poses_of [a] ++ poses_of acts.
Proof.
  destruct a; cbn [poses_of]; try reflexivity.
  destruct (custom_pose _ _ _ _); reflexivity.
Qed.

(** X17.  The pose commands sent to the library are those the user asked
    for, in order and once each: an origin reset sends the origin, accepted
    custom entries send their pose, rejected entries and every other step
    (ticks included) send none; this holds whether the log is paused or the
    viewer stopped. *)
Theorem poses_sent_are_those_asked (acts : list Action) :
  forall v v',
    run acts v = Ok v' ->
    filter is_set_pose (questnav v') =
    filter is_set_pose (questnav v) ++ map SetPose (poses_of acts).
Proof.
  induction acts as [|a acts IH]; intros v v' Hrun.
  - cbn in Hrun. injection Hrun as <-. cbn. rewrite app_nil_r. reflexivity.
  - cbn [run] in Hrun. destruct (step a v) as [v1|e] eqn:Ha; [|discriminate].
    cbn [bind] in Hrun. rewrite (poses_of_cons a acts), map_app, app_assoc.
    rewrite (IH v1 v' Hrun), (step_poses a v v1 Ha). reflexivity.
Qed.

Lemma window_push_grows (fps : Q) (samples : list Q) :
  (List.length samples <= 10)%nat ->
  List.length (window_push fps samples) =
  Nat.min 10 (S (List.length samples)).
Proof.
  intros Hlen.
  destruct (Nat.eq_dec (List.length samples) 10) as [Hfull|Hroom].
  - rewrite window_push_full by assumption. rewrite length_app, Hfull.
    destruct samples as [|x s]; [discriminate|].
    cbn [tl List.length] in *. lia.
  - rewrite window_push_room by lia. rewrite length_app.
    cbn [List.length]. lia.
Qed.

(** X10.  The window never shrinks: from a viewer reachable from a fresh
    one, no step makes the window shorter, and a pushed sample makes it one
    longer until it holds 10; from then on it stays at 10. *)
Theorem window_never_shrinks (a : Action) (v v' : Viewer) :
  reachable v ->
  step a v = Ok v' ->
  (List.length (frame_rate_samples v) <=
   List.length (frame_rate_samples v') <= 10)%nat /\
  (frame_rate_samples v' <> frame_rate_samples v ->
   List.length (frame_rate_samples v') =
   Nat.min 10 (S (List.length (frame_rate_samples v)))).
Proof.
  intros Hreach Hstep.
  destruct (reachable_window_ok v Hreach) as [Hlen _].
  destruct (step_cases a v v' Hstep)
    as [(r & v1 & -> & Hrunning & Heff)|[(r & -> & Hstopped & ->)|[Huser Hframe]]].
  - rewrite (te_samples _ _ _ _ Heff).
    destruct (get_all_unread_pose_frames r); [split; [lia|congruence]|].
    destruct (rate_sample (time_time r) (last_frame_time v));
      [|split; [lia|congruence]].
    rewrite window_push_grows by assumption. split; [lia|reflexivity].
  - split; [lia|congruence].
  - rewrite (uf_samples _ _ Hframe). split; [lia|congruence].
Qed.

End Proofs.

(** * The properties on concrete runs *)

Lemma sample_laws : LibraryLaws sample_library.
Proof.
  split.
  - intros f. apply Z.eqb_refl.
  - intros f g Heq. apply Z.eqb_eq in Heq. exact Heq.
Qed.

(** ** C1 *)

(** A running viewer whose last sequence is 7 drains the batch 10, 11: two
    frames were dropped. *)
Lemma frame_drops_per_batch_witness :
  exists v',
    _update_loop (sample_readings 102 [10; 11] true true None None)
      sample_viewer = Ok v' /\
    frame_drops v' = 2 /\
    total_frames_received v' = 9 /\
    last_frame_count v' = 11.
Proof.
  destruct (@frame_drops_per_batch sample_library sample_laws
              (sample_readings 102 [10; 11] true true None None)
              sample_viewer 10 [11])
    as (v' & Hok & _ & Hahead & _ & Htot & Hlast).
  - reflexivity.
  - reflexivity.
  - intros g [<-|[]]. reflexivity.
  - exists v'. split; [exact Hok|]. split; [|split].
    + apply Hahead; reflexivity.
    + exact Htot.
    + exact Hlast.
Defined.

(** C1 as stated fails after a frame with sequence 0: a frame has been
    seen (one frame received, last sequence 0), the next batch starts at 5,
    which is above expected = 1, and [frame_drops] does not move, where the
    claim adds 5 - 1 = 4. *)
Lemma sequence_zero_disarms_drop_check :
  exists v1 v2,
    ticks [sample_readings 101 [0] true true None None;
           sample_readings 102 [5] true true None None]
      (new_viewer 100) = Ok [v1; v2] /\
    total_frames_received v1 = 1 /\
    last_frame_count v1 = 0 /\
    last_frame_count v1 + 1 < 5 /\
    frame_drops v1 = 0 /\
    frame_drops v2 = 0 /\
    frame_drops v2 <> frame_drops v1 + (5 - (last_frame_count v1 + 1)).
Proof.
  eexists. eexists. split; [vm_compute; reflexivity|].
  repeat split; try reflexivity. discriminate.
Qed.

(** ** C9 *)

(** C9 on the code.  The drop check compares frames with [==], not
    positions, where the source comment has "only check first frame in
    batch".  A fresh viewer
    (last sequence 0) drains the batch 5, 3, 5 whose third frame equals the
    first: the check is skipped on the first frame, and runs on the third one
    with 3 as the last sequence, so [frame_drops] becomes 1. *)
Lemma repeated_first_frame_counts_a_drop :
  exists v',
    _update_loop (sample_readings 101 [5; 3; 5] true true None None)
      (new_viewer 100) = Ok v' /\
    last_frame_count (new_viewer 100) = 0 /\
    frame_drops (new_viewer 100) = 0 /\
    frame_drops v' = 1.
Proof.
  eexists. split; [vm_compute; reflexivity|]. repeat split.
Qed.

(** ** C5 *)

(** Contiguous batches 1,2,3 and 4,5,7 with a user action in between. *)
Lemma contiguous_stream_no_drops_witness :
  exists v,
    run [Tick (sample_readings 101 [1; 2; 3] true true None None);
         ToggleLogPause;
         Tick (sample_readings 102 [4; 5; 7] true true None None)]
      (new_viewer 100) = Ok v /\
    frame_drops v = 0.
Proof.
  eexists. split; [vm_compute; reflexivity|].
  apply (@contiguous_stream_no_drops sample_library sample_laws 100
           [Tick (sample_readings 101 [1; 2; 3] true true None None);
            ToggleLogPause;
            Tick (sample_readings 102 [4; 5; 7] true true None None)]).
  - vm_compute. reflexivity.
  - cbn. lia.
  - cbn. auto.
Defined.

(** C5 as stated fails on the scenario of the specification: the sequences
    1,2,3 then 4,5,6 then 10,11 are strictly increasing and [frame_drops]
    ends at 3. *)
Lemma increasing_stream_with_drops :
  exists v1 v2 v3,
    ticks [sample_readings 101 [1; 2; 3] true true None None;
           sample_readings 102 [4; 5; 6] true true None None;
           sample_readings 103 [10; 11] true true None None]
      (new_viewer 100) = Ok [v1; v2; v3] /\
    increasing [1; 2; 3; 4; 5; 6; 10; 11] /\
    frame_drops v3 = 3.
Proof.
  eexists. eexists. eexists. split; [vm_compute; reflexivity|].
  split; [cbn; lia | reflexivity].
Qed.

(** ** C4 *)

(** Two ticks, a twentieth of a second apart, each with one frame: the
    window holds the sample 20 and the label shows it. *)
Lemma rolling_rate_window_witness :
  exists v,
    run [Tick (sample_readings 101 [1] true true None None);
         Tick (sample_readings (2021 # 20) [2] true true None None)]
      (new_viewer 100) = Ok v /\
    (List.length (frame_rate_samples v) <= 10)%nat /\
    (frame_rate_samples v = [] <->
     labels v frame_rate_label = Txt "Frame Rate: --- Hz").
Proof.
  eexists. split; [vm_compute; reflexivity|].
  match goal with
  | |- (List.length (frame_rate_samples ?v) <= _)%nat /\ _ =>
      destruct (proj1 (@rolling_rate_window sample_library) v)
        as (Hlen & Hempty & _)
  end.
  - exists 100%Q.
    exists [Tick (sample_readings 101 [1] true true None None);
            Tick (sample_readings (2021 # 20) [2] true true None None)].
    vm_compute. reflexivity.
  - split; assumption.
Defined.

(** ** C8 *)

(** A tick with three frames adds the one sample of its first frame. *)
Lemma one_sample_per_tick_witness :
  exists v',
    _update_loop (sample_readings 102 [8; 9; 10] true true None None)
      sample_viewer = Ok v' /\
    frame_rate_samples v' = [20; 1]%Q.
Proof.
  eexists. split; [vm_compute; reflexivity|].
  match goal with
  | |- frame_rate_samples ?v = _ =>
      destruct (proj1 (@one_sample_per_tick sample_library)
                  (sample_readings 102 [8; 9; 10] true true None None)
                  sample_viewer v) as [Hsame|(fps & Hfps & Hpush)]
  end.
  - vm_compute. reflexivity.
  - vm_compute in Hsame. discriminate.
  - vm_compute in Hfps. injection Hfps as <-. rewrite Hpush.
    vm_compute. reflexivity.
Defined.

(** ** C6 *)

(** A tick without battery reading keeps the battery label. *)
Lemma tick_never_raises_witness :
  exists v',
    _update_loop (sample_readings 102 [8] true false None None)
      sample_viewer = Ok v' /\
    after_calls v' = [50] /\
    labels v' batt_label = Txt "Battery: ---%".
Proof.
  destruct (@tick_never_raises sample_library
              (sample_readings 102 [8] true false None None) sample_viewer)
    as (v' & Hok & Hafter & Hbatt & _).
  exists v'. split; [exact Hok|]. split.
  - apply Hafter. reflexivity.
  - rewrite Hbatt; reflexivity.
Defined.

(** ** C7 *)

(** The entries "1.0", "abc", "0.0", "90" are rejected; "1.0", "2.5",
    "0.0", "90" send one pose. *)
Lemma custom_pose_validation_witness :
  (exists v' detail,
     send_custom_pose "1.0" "abc" "0.0" "90" sample_viewer = Ok v' /\
     v' = set_messageboxes
            (messageboxes sample_viewer ++ [ShowError "Invalid Input" detail])
            sample_viewer /\
     questnav v' = questnav sample_viewer /\
     log v' = log sample_viewer /\
     dialog_open v' = dialog_open sample_viewer) /\
  (exists v',
     send_custom_pose "1.0" "2.5" "0.0" "90" sample_viewer = Ok v' /\
     questnav v' =
       [SetPose {| translation := {| tX := 1; tY := 5 # 2; tZ := 0 |};
                   rotation := {| rX := 0; rY := 0;
                                  rZ := math_radians 90 |} |}] /\
     dialog_open v' = false).
Proof.
  split.
  - apply (proj1 (@custom_pose_validation sample_library
                    "1.0" "abc" "0.0" "90" sample_viewer)).
    right. left. reflexivity.
  - destruct (proj2 (@custom_pose_validation sample_library
                       "1.0" "2.5" "0.0" "90" sample_viewer)
                1%Q (5 # 2)%Q 0%Q 90%Q eq_refl eq_refl eq_refl eq_refl)
      as (v' & Hok & Hq & _ & _ & Hd).
    exists v'. split; [exact Hok|]. split; [exact Hq | exact Hd].
Defined.

(** ** C10 *)

(** The battery reads 15, recovers to 50, then reads 10: one warning. *)
Lemma low_battery_warned_once_witness :
  exists v1 v2 v3,
    _update_loop (sample_readings 102 [] true true (Some 15) None)
      sample_viewer = Ok v1 /\
    run [Tick (sample_readings 103 [] true true (Some 50) None); ClearLog]
      v1 = Ok v2 /\
    _update_loop (sample_readings 104 [] true true (Some 10) None) v2
      = Ok v3 /\
    new_log sample_viewer v1 = [WarnLowBattery 15] /\
    forall b', ~ In (WarnLowBattery b') (new_log v2 v3).
Proof.
  eexists. eexists. eexists.
  split; [vm_compute; reflexivity|].
  split; [vm_compute; reflexivity|].
  split; [vm_compute; reflexivity|].
  split; [vm_compute; reflexivity|].
  match goal with
  | |- forall b', ~ In _ (new_log ?v2 ?v3) =>
      eapply (@low_battery_warned_once sample_library
                (sample_readings 102 [] true true (Some 15) None)
                sample_viewer _ 15
                [Tick (sample_readings 103 [] true true (Some 50) None);
                 ClearLog]
                v2
                (sample_readings 104 [] true true (Some 10) None) v3)
  end.
  - vm_compute. reflexivity.
  - vm_compute. left. reflexivity.
  - vm_compute. reflexivity.
  - vm_compute. reflexivity.
Defined.

(** ** C2 *)

(** Tracking goes from true to false while the device reports 3. *)
Lemma tracking_lost_label_is_raw_witness :
  exists v',
    _update_loop (sample_readings 102 [] true false None (Some 3))
      sample_viewer = Ok v' /\
    labels v' tracking_lost_label = TxtInt "Tracking Lost Events: " 3 "" /\
    filter is_tracking_edge (new_log sample_viewer v') = [WarnTrackingLost].
Proof.
  eexists. split; [vm_compute; reflexivity|].
  match goal with
  | |- labels ?v _ = _ /\ _ =>
      destruct (@tracking_lost_label_is_raw sample_library
                  (sample_readings 102 [] true false None (Some 3))
                  sample_viewer v) as (Hlabel & Hedge)
  end.
  - reflexivity.
  - vm_compute. reflexivity.
  - split; [exact Hlabel|]. apply Hedge; reflexivity.
Defined.

(** C2 as stated fails: the device reports 3, tracking is lost at the
    second tick and the value shown stays 3, where the claim has 4; at the
    third tick nothing changes but the device reports 7, and the value shown
    moves by 4, where the claim has 0. *)
Lemma tracking_lost_value_ignores_transitions :
  exists v1 v2 v3,
    ticks [sample_readings 102 [] true true None (Some 3);
           sample_readings 103 [] true false None (Some 3);
           sample_readings 104 [] true false None (Some 7)]
      sample_viewer = Ok [v1; v2; v3] /\
    labels v1 tracking_lost_label = TxtInt "Tracking Lost Events: " 3 "" /\
    attrs v1 _was_tracking = Some true /\
    attrs v2 _was_tracking = Some false /\
    filter is_tracking_edge (new_log v1 v2) = [WarnTrackingLost] /\
    labels v2 tracking_lost_label = TxtInt "Tracking Lost Events: " 3 "" /\
    filter is_tracking_edge (new_log v2 v3) = [] /\
    labels v3 tracking_lost_label = TxtInt "Tracking Lost Events: " 7 "".
Proof.
  eexists. eexists. eexists. split; [vm_compute; reflexivity|].
  repeat split.
Qed.

(** ** C3 *)

(** Five ticks that read both flags as false, false, true, true, false. *)
Lemma edge_events_per_tick_witness :
  exists vs,
    ticks [sample_readings 101 [] false false None None;
           sample_readings 102 [] false false None None;
           sample_readings 103 [] true true None None;
           sample_readings 104 [] true true None None;
           sample_readings 105 [] false false None None]
      (new_viewer 100) = Ok vs /\
    edges_per_tick is_connection_edge (new_viewer 100) vs =
      [[]; []; [OkQuestConnected]; []; [WarnQuestDisconnected]].
Proof.
  apply (proj1 (proj2 (proj2 (@edge_events_per_tick sample_library)))).
  reflexivity.
Defined.

(** C3 as stated fails at the first tick: the flags have no previous
    value, so a viewer whose first tick reads both flags as true writes no
    event, where a flag that starts out false would give a "started" event.
    It also fails while the log is paused: the connection goes from false to
    true and no line is written. *)
Lemma first_tick_and_paused_log_write_no_event :
  (exists v',
     _update_loop (sample_readings 101 [] true true None None)
       (new_viewer 100) = Ok v' /\
     filter is_connection_edge (new_log (new_viewer 100) v') = [] /\
     filter is_tracking_edge (new_log (new_viewer 100) v') = [] /\
     spec_edge_event (attrs (new_viewer 100) _was_connected) true
       OkQuestConnected WarnQuestDisconnected = [OkQuestConnected] /\
     spec_edge_event (attrs (new_viewer 100) _was_tracking) true
       OkTrackingStarted WarnTrackingLost = [OkTrackingStarted]) /\
  (exists v1 v2 v3,
     run [Tick (sample_readings 101 [] false false None None); ToggleLogPause]
       (new_viewer 100) = Ok v2 /\
     _update_loop (sample_readings 101 [] false false None None)
       (new_viewer 100) = Ok v1 /\
     attrs v2 _was_connected = Some false /\
     log_paused v2 = true /\
     _update_loop (sample_readings 102 [] true false None None) v2 = Ok v3 /\
     attrs v3 _was_connected = Some true /\
     new_log v2 v3 = []).
Proof.
  split.
  - eexists. split; [vm_compute; reflexivity|]. repeat split.
  - eexists. eexists. eexists.
    split; [vm_compute; reflexivity|].
    split; [vm_compute; reflexivity|].
    split; [reflexivity|]. split; [reflexivity|].
    split; [vm_compute; reflexivity|].
    split; reflexivity.
Qed.

(** ** Further properties, on concrete runs *)

Lemma log_append_only_witness :
  exists v',
    step (Tick (sample_readings 102 [20] true false (Some 15) None))
      sample_viewer = Ok v' /\
    exists added, log v' = log sample_viewer ++ added.
Proof.
  eexists. split; [vm_compute; reflexivity|].
  eapply (@log_append_only sample_library
            (Tick (sample_readings 102 [20] true false (Some 15) None))
            sample_viewer).
  - reflexivity.
  - vm_compute. reflexivity.
Defined.

Lemma paused_log_is_silent_witness :
  exists v',
    step (Tick (sample_readings 102 [20] true false (Some 15) None))
      (_toggle_log_pause sample_viewer) = Ok v' /\
    log v' = log (_toggle_log_pause sample_viewer) /\ log_paused v' = true.
Proof.
  eexists. split; [vm_compute; reflexivity|].
  eapply (@paused_log_is_silent sample_library
            (Tick (sample_readings 102 [20] true false (Some 15) None))
            (_toggle_log_pause sample_viewer)).
  - reflexivity.
  - reflexivity.
  - reflexivity.
  - vm_compute. reflexivity.
Defined.

Lemma stop_is_final_witness :
  exists v',
    run [Tick (sample_readings 102 [20] true false None None);
         ResetPoseOrigin]
      (stop sample_viewer) = Ok v' /\
    _running v' = false /\
    total_frames_received v' = 7 /\
    after_calls v' = [].
Proof.
  eexists. split; [vm_compute; reflexivity|].
  match goal with
  | |- _running ?v = false /\ _ =>
      destruct (@stop_is_final sample_library
                  [Tick (sample_readings 102 [20] true false None None);
                   ResetPoseOrigin] sample_viewer v)
        as (Hr & Ht & _ & _ & _ & Ha & _)
  end.
  - vm_compute. reflexivity.
  - split; [exact Hr|]. split; [exact Ht | exact Ha].
Defined.

Lemma one_periodic_call_per_tick_witness :
  exists v,
    run [Tick (sample_readings 101 [1] true true None None);
         ResetPoseOrigin;
         Tick (sample_readings 102 [2] true true None None)]
      (new_viewer 100) = Ok v /\
    List.length (filter is_command_periodic (questnav v)) =
      List.length (after_calls v) /\
    Forall (fun delay => delay = 50) (after_calls v).
Proof.
  eexists. split; [vm_compute; reflexivity|].
  eapply (proj1 (@one_periodic_call_per_tick sample_library) 100%Q
            [Tick (sample_readings 101 [1] true true None None);
             ResetPoseOrigin;
             Tick (sample_readings 102 [2] true true None None)]).
  vm_compute. reflexivity.
Defined.

Lemma counters_never_decrease_witness :
  exists v',
    step (Tick (sample_readings 102 [5; 3; 5] true true None None))
      sample_viewer = Ok v' /\
    total_frames_received sample_viewer <= total_frames_received v' /\
    frame_drops sample_viewer <= frame_drops v'.
Proof.
  eexists. split; [vm_compute; reflexivity|].
  eapply (@counters_never_decrease sample_library
            (Tick (sample_readings 102 [5; 3; 5] true true None None))
            sample_viewer).
  vm_compute. reflexivity.
Defined.

Lemma every_frame_is_counted_witness :
  exists v,
    run [Tick (sample_readings 101 [1; 2] true true None None);
         ToggleLogPause;
         Tick (sample_readings 102 [7; 7; 3] true true None None)]
      (new_viewer 100) = Ok v /\
    total_frames_received v = 5.
Proof.
  eexists. split; [vm_compute; reflexivity|].
  eapply (@every_frame_is_counted sample_library 100%Q
            [Tick (sample_readings 101 [1; 2] true true None None);
             ToggleLogPause;
             Tick (sample_readings 102 [7; 7; 3] true true None None)]).
  - reflexivity.
  - vm_compute. reflexivity.
Defined.

Lemma counters_are_shown_witness :
  exists v,
    run [Tick (sample_readings 101 [1] true true None None);
         Tick (sample_readings 102 [9] true true None None);
         ClearLog]
      (new_viewer 100) = Ok v /\
    shows (labels v total_frames_label) "Total Received: "
      (total_frames_received v) /\
    shows (labels v frame_drops_label) "Frame Drops: " (frame_drops v).
Proof.
  eexists. split; [vm_compute; reflexivity|].
  eapply (@counters_are_shown sample_library).
  exists 100%Q.
  exists [Tick (sample_readings 101 [1] true true None None);
          Tick (sample_readings 102 [9] true true None None);
          ClearLog].
  vm_compute. reflexivity.
Defined.

Lemma samples_are_positive_witness :
  exists v,
    run [Tick (sample_readings 101 [1] true true None None);
         Tick (sample_readings 102 [2] true true None None);
         Tick (sample_readings 101 [3] true true None None)]
      (new_viewer 100) = Ok v /\
    Forall (fun fps => (0 < fps)%Q) (frame_rate_samples v).
Proof.
  eexists. split; [vm_compute; reflexivity|].
  eapply (@samples_are_positive sample_library).
  exists 100%Q.
  exists [Tick (sample_readings 101 [1] true true None None);
          Tick (sample_readings 102 [2] true true None None);
          Tick (sample_readings 101 [3] true true None None)].
  vm_compute. reflexivity.
Defined.

Lemma sample_needs_elapsed_time_witness :
  exists v',
    _update_loop (sample_readings 101 [8; 9] true true None None)
      sample_viewer = Ok v' /\
    last_frame_time v' = 101%Q /\
    frame_rate_samples v' = frame_rate_samples sample_viewer.
Proof.
  eexists. split; [vm_compute; reflexivity|].
  match goal with
  | |- last_frame_time ?v = _ /\ _ =>
      destruct (@sample_needs_elapsed_time sample_library
                  (sample_readings 101 [8; 9] true true None None)
                  sample_viewer v 8 [9]) as (Ht & Hsame & _)
  end.
  - reflexivity.
  - reflexivity.
  - vm_compute. reflexivity.
  - split; [exact Ht|]. apply Hsame. right. vm_compute. discriminate.
Defined.

Lemma uptime_is_minutes_and_seconds_witness :
  exists v' mins secs,
    _update_loop (sample_readings 225 [] true true None None)
      sample_viewer = Ok v' /\
    labels v' uptime_label = TxtUptime mins secs /\
    0 <= secs < 60 /\
    60 * mins + secs = 125.
Proof.
  destruct (@uptime_is_minutes_and_seconds sample_library
              (sample_readings 225 [] true true None None) sample_viewer
              _ eq_refl ltac:(vm_compute; reflexivity))
    as (mins & secs & Hl & Hs & Hsum & _).
  eexists _, mins, secs. split; [vm_compute; reflexivity|].
  split; [exact Hl|]. split; [exact Hs | exact Hsum].
Defined.

Lemma drop_warning_above_five_witness :
  exists v',
    _update_loop (sample_readings 102 [20; 21] true true None None)
      sample_viewer = Ok v' /\
    filter is_dropped (new_log sample_viewer v') = [WarnDropped 12].
Proof.
  eexists. split; [vm_compute; reflexivity|].
  match goal with
  | |- filter is_dropped (new_log _ ?v) = _ =>
      rewrite (@drop_warning_above_five sample_library sample_laws
                 (sample_readings 102 [20; 21] true true None None)
                 sample_viewer v 20 [21])
  end.
  - vm_compute. reflexivity.
  - reflexivity.
  - reflexivity.
  - intros g [<-|[]]. reflexivity.
  - vm_compute. reflexivity.
Defined.

Lemma low_battery_warning_condition_witness :
  exists v',
    _update_loop (sample_readings 102 [] true true (Some 19) None)
      sample_viewer = Ok v' /\
    In (WarnLowBattery 19) (new_log sample_viewer v') /\
    attrs v' _low_battery_warned = Some true.
Proof.
  eexists. split; [vm_compute; reflexivity|].
  match goal with
  | |- In _ (new_log _ ?v) /\ _ =>
      destruct (@low_battery_warning_condition sample_library
                  (sample_readings 102 [] true true (Some 19) None)
                  sample_viewer v 19) as (Hiff & Hset & _)
  end.
  - reflexivity.
  - vm_compute. reflexivity.
  - split.
    + apply Hiff. repeat split.
    + apply Hset; reflexivity.
Defined.

Lemma paused_log_loses_battery_warning_witness :
  exists v1 v2 v3,
    _update_loop (sample_readings 102 [] true true (Some 15) None)
      (_toggle_log_pause sample_viewer) = Ok v1 /\
    run [ToggleLogPause] v1 = Ok v2 /\
    _update_loop (sample_readings 103 [] true true (Some 10) None) v2
      = Ok v3 /\
    log_paused v2 = false /\
    log v1 = log (_toggle_log_pause sample_viewer) /\
    forall b', ~ In (WarnLowBattery b') (new_log v2 v3).
Proof.
  eexists. eexists. eexists.
  split; [vm_compute; reflexivity|].
  split; [vm_compute; reflexivity|].
  split; [vm_compute; reflexivity|].
  split; [reflexivity|].
  eapply (@paused_log_loses_battery_warning sample_library
            (sample_readings 102 [] true true (Some 15) None)
            (_toggle_log_pause sample_viewer) _ 15 [ToggleLogPause] _
            (sample_readings 103 [] true true (Some 10) None)).
  - reflexivity.
  - reflexivity.
  - reflexivity.
  - reflexivity.
  - reflexivity.
  - vm_compute. reflexivity.
  - vm_compute. reflexivity.
  - vm_compute. reflexivity.
Defined.

Lemma pose_display_shows_last_frame_witness :
  exists v',
    _update_loop (sample_readings 102 [8; 9] true true None None)
      sample_viewer = Ok v' /\
    Some (labels v' pos_x) = pose_text Pose3d_origin pos_x.
Proof.
  eexists. split; [vm_compute; reflexivity|].
  match goal with
  | |- Some (labels ?v _) = _ =>
      apply (@pose_display_shows_last_frame sample_library
               (sample_readings 102 [8; 9] true true None None)
               sample_viewer v pos_x)
  end.
  - reflexivity.
  - reflexivity.
  - vm_compute. reflexivity.
Defined.

Lemma poses_sent_are_those_asked_witness :
  exists v',
    run [SendCustomPose "1.0" "abc" "0.0" "90";
         Tick (sample_readings 102 [8] true true None None);
         SendCustomPose "1.0" "2.5" "0.0" "90";
         Stop;
         ResetPoseOrigin]
      sample_viewer = Ok v' /\
    filter is_set_pose (questnav v') =
      [SetPose {| translation := {| tX := 1; tY := 5 # 2; tZ := 0 |};
                  rotation := {| rX := 0; rY := 0;
                                 rZ := math_radians 90 |} |};
       SetPose Pose3d_origin].
Proof.
  eexists. split; [vm_compute; reflexivity|].
  match goal with
  | |- filter is_set_pose (questnav ?v) = _ =>
      rewrite (@poses_sent_are_those_asked sample_library
                 [SendCustomPose "1.0" "abc" "0.0" "90";
                  Tick (sample_readings 102 [8] true true None None);
                  SendCustomPose "1.0" "2.5" "0.0" "90";
                  Stop;
                  ResetPoseOrigin] sample_viewer v)
  end.
  - reflexivity.
  - vm_compute. reflexivity.
Defined.

Lemma window_never_shrinks_witness :
  exists v v',
    run [Tick (sample_readings 101 [1] true true None None)]
      (new_viewer 100) = Ok v /\
    step (Tick (sample_readings 102 [2] true true None None)) v = Ok v' /\
    (List.length (frame_rate_samples v) <=
     List.length (frame_rate_samples v') <= 10)%nat.
Proof.
  eexists. eexists.
  split; [vm_compute; reflexivity|].
  split; [vm_compute; reflexivity|].
  eapply (@window_never_shrinks sample_library
            (Tick (sample_readings 102 [2] true true None None))).
  - exists 100%Q.
    exists [Tick (sample_readings 101 [1] true true None None)].
    vm_compute. reflexivity.
  - vm_compute. reflexivity.
Defined.
